(** * LinkedIn profile finder: extraction heuristics and paginated retrieval

    A shallow embedding of [src/app.py]: the class [LinkedInProfileExtractor]
    (pure string heuristics over one search result) and the pagination loop of
    [GoogleSearchAPI.search].  Python values are embedded as JSON-shaped data,
    Python exceptions as an explicit error result, and the effects of the
    retrieval loop (progress callback, HTTP request, sleep) as a trace of
    events produced in program order. *)

From Stdlib Require Import List NArith ZArith Bool Lia String Ascii Sorted.
Import ListNotations.

Set Implicit Arguments.

(** ** Python [str]

    A Python string is a sequence of Unicode code points; [len], slicing,
    [split], [replace] and [strip] all count code points, so the embedding is
    a list of code points and not a list of bytes. *)

Module PyStr.

Definition char := N.
Definition str := list char.

(** A literal of the source, written with its (ASCII) characters. *)
Definition lit (s : string) : str := map N_of_ascii (list_ascii_of_string s).

Definition str_eqb (a b : str) : bool :=
  if list_eq_dec N.eq_dec a b then true else false.

(** [s.startswith(p)] *)
Fixpoint startswith (p s : str) : bool :=
  match p, s with
  | [], _ => true
  | a :: p', b :: s' => N.eqb a b && startswith p' s'
  | _ :: _, [] => false
  end.

(** [sub in s] for strings: some suffix of [s] starts with [sub]. *)
Fixpoint contains (sub s : str) : bool :=
  startswith sub s ||
  match s with
  | [] => false
  | _ :: s' => contains sub s'
  end.

(** [s.replace(old, new)] for a non-empty [old] (every call site passes a
    non-empty literal): occurrences are found left to right and do not
    overlap.  [skip] counts the characters of a found occurrence that are
    still to be dropped. *)
Fixpoint replace_from (old new : str) (skip : nat) (s : str) : str :=
  match s with
  | [] => []
  | c :: s' =>
      match skip with
      | S k => replace_from old new k s'
      | O =>
          if startswith old s
          then new ++ replace_from old new (List.length old - 1) s'
          else c :: replace_from old new 0 s'
      end
  end.

Definition replace (old new s : str) : str := replace_from old new 0 s.

(** [s.split(sep)] for a non-empty [sep]: the segments between the
    non-overlapping occurrences of [sep], found left to right.  The result is
    never the empty list; it is computed as the first segment and the list of
    the later ones. *)
Fixpoint split_from (sep : str) (skip : nat) (s : str) : str * list str :=
  match s with
  | [] => ([], [])
  | c :: s' =>
      match skip with
      | S k => split_from sep k s'
      | O =>
          if startswith sep s
          then let (h, t) := split_from sep (List.length sep - 1) s' in ([], h :: t)
          else let (h, t) := split_from sep 0 s' in (c :: h, t)
      end
  end.

Definition split (sep s : str) : list str :=
  let (h, t) := split_from sep 0 s in h :: t.

(** [sep.join(parts)] *)
Fixpoint join (sep : str) (parts : list str) : str :=
  match parts with
  | [] => []
  | [p] => p
  | p :: rest => p ++ sep ++ join sep rest
  end.

(** [c.isspace()]: the code points CPython's [Py_UNICODE_ISSPACE] accepts.
    [str.strip()], [str.split()] without argument and the regular
    expression class [\s] all use this set. *)
Definition isspace (c : char) : bool :=
  ((9 <=? c) && (c <=? 13) || (28 <=? c) && (c <=? 32) ||
   (c =? 133) || (c =? 160) || (c =? 5760) ||
   (8192 <=? c) && (c <=? 8202) ||
   (c =? 8232) || (c =? 8233) || (c =? 8239) || (c =? 8287) ||
   (c =? 12288))%N.

Fixpoint lstrip (s : str) : str :=
  match s with
  | [] => []
  | c :: s' => if isspace c then lstrip s' else s
  end.

Definition rstrip (s : str) : str := rev (lstrip (rev s)).

(** [s.strip()] *)
Definition strip (s : str) : str := rstrip (lstrip s).

(** [s.split()] without argument: the maximal runs of non-whitespace
    characters.  [words_from s] is the run that starts at the head of [s]
    (empty when [s] starts with whitespace) and the later runs. *)
Fixpoint words_from (s : str) : str * list str :=
  match s with
  | [] => ([], [])
  | c :: s' =>
      let (w, ws) := words_from s' in
      if isspace c
      then ([], match w with [] => ws | _ :: _ => w :: ws end)
      else (c :: w, ws)
  end.

Definition split_whitespace (s : str) : list str :=
  let (w, ws) := words_from s in
  match w with
  | [] => ws
  | _ :: _ => w :: ws
  end.

(** [s.lower()].  The source only tests ASCII keywords against the lowered
    string and never returns it, so the embedding keeps what that test can
    observe: the ASCII capitals, and the two code points outside ASCII whose
    lower case contains an ASCII letter (U+0130 gives [i] followed by U+0307,
    U+212A gives [k]).  Every other code point lowers to code points outside
    ASCII and is left as it is. *)
Definition lower_char (c : char) : str :=
  (if (65 <=? c) && (c <=? 90) then [c + 32]
   else if c =? 304 then [105; 775]
   else if c =? 8490 then [107]
   else [c])%N.

Definition lower (s : str) : str := flat_map lower_char s.

(** [s[:n]] for a non-negative [n]. *)
Definition slice_to (n : nat) (s : str) : str := firstn n s.

(** [len(s)] *)
Definition len (s : str) : Z := Z.of_nat (List.length s).

End PyStr.

Import PyStr.

(** ** Python values, dictionaries and exceptions

    A search result is what [response.json()] produces: nested dictionaries,
    lists, strings, numbers, booleans and [None].  A dictionary is embedded as
    an association list in insertion order with the first binding of a key
    being the live one.  A JSON number only meets truth tests in this program,
    so an integer stands for it. *)

Module PyVal.

Set Warnings "-register-all".

Inductive value : Type :=
| VNone
| VBool (b : bool)
| VInt (z : Z)
| VStr (s : str)
| VList (l : list value)
| VDict (d : list (str * value)).

Definition dict := list (str * value).

(** The exception classes the program can meet while it inspects a value or
    performs a request. *)
Inductive exn : Type :=
| KeyError
| IndexError
| TypeError
| AttributeError
| RequestException
| JSONDecodeError
| ValueError
| OverflowError
| OtherException.

(** The outcome of an expression: a value, or a raised exception. *)
Inductive result (A : Type) : Type :=
| Ret (a : A)
| Raise (e : exn).

Arguments Ret {A} a.
Arguments Raise {A} e.

Definition bind {A B : Type} (m : result A) (k : A -> result B) : result B :=
  match m with
  | Ret a => k a
  | Raise e => Raise e
  end.

Notation "x <- m ;; k" := (bind m (fun x => k))
  (at level 61, m at next level, right associativity).

(** [try: m except (e1, e2, ...): handler] *)
Definition try_except {A : Type} (m : result A) (caught : exn -> bool)
    (handler : result A) : result A :=
  match m with
  | Ret a => Ret a
  | Raise e => if caught e then handler else Raise e
  end.

(** [bool(v)] *)
Definition truthy (v : value) : bool :=
  match v with
  | VNone => false
  | VBool b => b
  | VInt z => negb (z =? 0)%Z
  | VStr s => match s with [] => false | _ :: _ => true end
  | VList l => match l with [] => false | _ :: _ => true end
  | VDict d => match d with [] => false | _ :: _ => true end
  end.

Fixpoint dict_get (k : str) (d : dict) : option value :=
  match d with
  | [] => None
  | (k', v) :: d' => if str_eqb k' k then Some v else dict_get k d'
  end.

(** [d.get(k, default)] on a dictionary. *)
Definition dict_get_default (d : dict) (k : str) (default : value) : value :=
  match dict_get k d with
  | Some v => v
  | None => default
  end.

(** [d[k] = v]: an existing key keeps its place, a new key goes last. *)
Fixpoint dict_set (k : str) (v : value) (d : dict) : dict :=
  match d with
  | [] => [(k, v)]
  | (k', v') :: d' =>
      if str_eqb k' k then (k', v) :: d' else (k', v') :: dict_set k v d'
  end.

(** [v.get(k, default)]: only a dictionary has the method. *)
Definition py_get (v : value) (k : str) (default : value) : result value :=
  match v with
  | VDict d => Ret (dict_get_default d k default)
  | _ => Raise AttributeError
  end.

(** [k in v] for a string [k]: key membership in a dictionary, element
    membership in a list, substring test in a string; the other values are
    not iterable. *)
Definition py_in (k : str) (v : value) : result bool :=
  match v with
  | VDict d => Ret (match dict_get k d with Some _ => true | None => false end)
  | VList l =>
      Ret (existsb (fun x => match x with VStr s => str_eqb s k | _ => false end) l)
  | VStr s => Ret (contains k s)
  | _ => Raise TypeError
  end.

(** [v[k]] for a string [k]. *)
Definition py_getitem (v : value) (k : str) : result value :=
  match v with
  | VDict d => match dict_get k d with Some x => Ret x | None => Raise KeyError end
  | _ => Raise TypeError
  end.

(** [v[0]]: the keys of a dictionary read from JSON are strings, so the
    integer key is never found. *)
Definition py_first (v : value) : result value :=
  match v with
  | VList l => match l with x :: _ => Ret x | [] => Raise IndexError end
  | VStr s => match s with c :: _ => Ret (VStr [c]) | [] => Raise IndexError end
  | VDict _ => Raise KeyError
  | _ => Raise TypeError
  end.

(** [v[k] = x] for a string [k]: only a dictionary accepts it. *)
Definition py_setitem (v : value) (k : str) (x : value) : result value :=
  match v with
  | VDict d => Ret (VDict (dict_set k x d))
  | _ => Raise TypeError
  end.

Definition is_str (v : value) : bool :=
  match v with
  | VStr _ => true
  | _ => false
  end.

End PyVal.

Import PyVal.

(** ** class LinkedInProfileExtractor *)

Module LinkedInProfileExtractor.

Definition NA : str := lit "N/A".
Definition linkedin_suffix : str := lit " | LinkedIn".
Definition dash : str := lit " - ".
(** The separator of line 87: a space, the middle dot U+00B7, a space. *)
Definition middle_dot : str := [32; 183; 32]%N.

Definition nonempty (s : str) : bool :=
  match s with
  | [] => false
  | _ :: _ => true
  end.

(** One alternative of the pattern [^(Dr\.?|Mr\.?|Ms\.?|Mrs\.?)\s+] tried at
    the start of [s]: the letters of [p], an optional full stop, and one or
    more whitespace characters (greedy).  A full stop that follows the
    letters has to be taken, since [\s] does not match it.  The answer is
    what follows the match. *)
Definition match_honorific (p s : str) : option str :=
  if startswith p s then
    let r := skipn (List.length p) s in
    let r' := match r with
              | c :: t => if (c =? 46)%N then t else r
              | [] => r
              end in
    match r' with
    | c :: _ => if isspace c then Some (lstrip r') else None
    | [] => None
    end
  else None.

Fixpoint first_honorific (alts : list str) (s : str) : option str :=
  match alts with
  | [] => None
  | p :: alts' =>
      match match_honorific p s with
      | Some rest => Some rest
      | None => first_honorific alts' s
      end
  end.

(** [re.sub(r'^(Dr\.?|Mr\.?|Ms\.?|Mrs\.?)\s+', '', name)]: the pattern is
    anchored at the start of the string, so at most one match is removed. *)
Definition sub_honorific (name : str) : str :=
  match first_honorific [lit "Dr"; lit "Mr"; lit "Ms"; lit "Mrs"] name with
  | Some rest => rest
  | None => name
  end.

(** [_extract_name_from_title(title)], lines 55-72. *)
Definition _extract_name_from_title (title : str) : str :=
  if negb (nonempty title) then NA
  else
    let title := replace linkedin_suffix [] title in
    let parts := split dash title in
    match parts with
    | p0 :: _ =>
        let name := strip p0 in
        let name := sub_honorific name in
        name
    | [] => strip title
    end.

(** The first attempt of [_extract_title_from_content], lines 78-84:
    [None] stands for falling through to the snippet. *)
Definition title_from_title (title : str) : option str :=
  if contains dash title then
    let parts := split dash title in
    if (1 <? List.length parts)%nat then
      let professional_title := strip (replace linkedin_suffix [] (nth 1 parts [])) in
      if nonempty professional_title then Some professional_title else None
    else None
  else None.

Definition keywords : list str :=
  map lit ["manager"; "director"; "engineer"; "analyst"; "specialist";
           "coordinator"; "executive"; "consultant"; "senior"; "lead"]%string.

Definition has_keyword (line : str) : bool :=
  existsb (fun keyword => contains keyword (lower line)) keywords.

(** The loop over [snippet_lines], lines 88-95. *)
Fixpoint first_keyword_line (snippet_lines : list str) : option str :=
  match snippet_lines with
  | [] => None
  | line :: rest =>
      let line := strip line in
      if has_keyword line then Some line else first_keyword_line rest
  end.

(** The snippet part of [_extract_title_from_content], lines 87-99. *)
Definition title_from_snippet (snippet : str) : str :=
  let snippet_lines := split middle_dot snippet in
  match first_keyword_line snippet_lines with
  | Some line => line
  | None =>
      let first_line :=
        if nonempty snippet then strip (hd [] (split (lit ".") snippet)) else [] in
      if nonempty first_line then first_line else NA
  end.

(** [_extract_title_from_content(title, snippet)], lines 74-99. *)
Definition _extract_title_from_content (title snippet : str) : str :=
  match title_from_title title with
  | Some professional_title => professional_title
  | None => title_from_snippet snippet
  end.

(** [_clean_description(snippet)], lines 121-137. *)
Definition _clean_description (snippet : str) : str :=
  if negb (nonempty snippet) then NA
  else
    let snippet := replace (lit "&nbsp;") (lit " ") (replace (lit "&amp;") (lit "&") snippet) in
    let snippet := join (lit " ") (split_whitespace snippet) in
    if (300 <? len snippet)%Z then slice_to 300 snippet ++ lit "..."
    else snippet.

(** [A and B] where [A] is a membership test and [B] a value used for its
    truth: [B] is evaluated only when [A] holds. *)
Definition and_truthy (a : result bool) (b : result value) : result bool :=
  x <- a ;;
  if x then (v <- b ;; Ret (truthy v)) else Ret false.

Definition caught_by_image (e : exn) : bool :=
  match e with
  | KeyError | IndexError | TypeError => true
  | _ => false
  end.

(** [_extract_image_url(search_result)], lines 101-119. *)
Definition _extract_image_url (search_result : dict) : result value :=
  try_except
    (let pagemap := dict_get_default search_result (lit "pagemap") (VDict []) in
     has_cse <- and_truthy (py_in (lit "cse_image") pagemap)
                           (py_getitem pagemap (lit "cse_image")) ;;
     if has_cse then
       cse_image <- py_getitem pagemap (lit "cse_image") ;;
       first <- py_first cse_image ;;
       py_get first (lit "src") (VStr [])
     else
       has_meta <- and_truthy (py_in (lit "metatags") pagemap)
                              (py_getitem pagemap (lit "metatags")) ;;
       if has_meta then
         metatags <- py_getitem pagemap (lit "metatags") ;;
         metatag <- py_first metatags ;;
         py_get metatag (lit "og:image") (VStr [])
       else Ret (VStr []))
    caught_by_image
    (Ret (VStr [])).

(** The three helpers are annotated with [str] arguments but receive whatever
    [search_result.get] returns.  On a value that is not a string each one
    behaves as its first operations dictate: a truth test accepts every
    value, [in] wants an iterable, and the methods [replace] and [split]
    exist on strings only. *)
Definition name_of_value (title : value) : result value :=
  match title with
  | VStr s => Ret (VStr (_extract_name_from_title s))
  | _ => if truthy title then Raise AttributeError else Ret (VStr NA)
  end.

Definition title_of_values (title snippet : value) : result value :=
  attempt <- match title with
             | VStr s => Ret (title_from_title s)
             | VList _ | VDict _ =>
                 found <- py_in dash title ;;
                 if found then Raise AttributeError else Ret None
             | _ => Raise TypeError
             end ;;
  match attempt with
  | Some professional_title => Ret (VStr professional_title)
  | None =>
      match snippet with
      | VStr s => Ret (VStr (title_from_snippet s))
      | _ => Raise AttributeError
      end
  end.

Definition description_of_value (snippet : value) : result value :=
  match snippet with
  | VStr s => Ret (VStr (_clean_description s))
  | _ => if truthy snippet then Raise AttributeError else Ret (VStr NA)
  end.

(** [extract_profile_info(search_result)], lines 22-53. *)
Definition extract_profile_info (search_result : dict) : result dict :=
  let title_text := dict_get_default search_result (lit "title") (VStr []) in
  name <- name_of_value title_text ;;
  professional_title <-
    title_of_values title_text
                    (dict_get_default search_result (lit "snippet") (VStr [])) ;;
  image_url <- _extract_image_url search_result ;;
  description <-
    description_of_value (dict_get_default search_result (lit "snippet") (VStr [])) ;;
  Ret [ (lit "name", name);
        (lit "title", professional_title);
        (lit "link", dict_get_default search_result (lit "link") (VStr []));
        (lit "description", description);
        (lit "image", image_url) ].

End LinkedInProfileExtractor.

Import LinkedInProfileExtractor.

(** ** class GoogleSearchAPI

    The outside world of one call of [search] is a function [http_get] from
    the start offset of a request to what
    [requests.get(...); raise_for_status(); response.json()] does there: it
    returns the decoded body or raises.  The API key, the engine identifier,
    the query and the extra parameters are the same for all requests of a
    run, and a run asks for every start offset at most once, so they are
    part of that function.  The caller's progress callback may itself
    raise.  Log records are not part of the embedding.

    What the loop does to the outside is recorded as a trace of events in
    program order: a call of the callback with its three arguments, a
    request and a sleep, the last two with the page of the iteration they
    belong to. *)

Module GoogleSearchAPI.

Inductive event : Type :=
| EvProgress (page max_pages total_items : Z)
| EvRequest (page start_index : Z)
| EvSleep (page seconds : Z).

Definition results_per_page : Z := 10.

(** [start_index = (page - 1) * self.results_per_page + 1] *)
Definition start_index_of (page : Z) : Z := (page - 1) * results_per_page + 1.

(** [time.sleep(secs)] on an integer.  CPython converts the seconds to
    nanoseconds held in a signed 64-bit integer, so [secs * 10 ** 9] has to
    stay below [2 ** 63]: the call raises [OverflowError] from 9223372037
    seconds on, and [ValueError] on a negative number. *)
Definition sleep_limit : Z := 9223372037.

Definition time_sleep (secs : Z) : result unit :=
  if (secs <? 0)%Z then Raise ValueError
  else if (sleep_limit <=? secs)%Z then Raise OverflowError
  else Ret tt.

(** [for item in v]: a list yields its elements, a dictionary its keys, a
    string its characters; nothing else is iterable. *)
Definition py_iter (v : value) : result (list value) :=
  match v with
  | VList l => Ret l
  | VDict d => Ret (map (fun kv => VStr (fst kv)) d)
  | VStr s => Ret (map (fun c => VStr [c]) s)
  | _ => Raise TypeError
  end.

(** The body of the loop of lines 201-203 for one item: both keys are set
    from the state before the page is appended. *)
Definition tag_item (page : Z) (all_results : list value) (item : value)
    : result value :=
  item1 <- py_setitem item (lit "page_number") (VInt page) ;;
  py_setitem item1 (lit "result_index") (VInt (Z.of_nat (List.length all_results) + 1)).

Fixpoint tag_items (page : Z) (all_results : list value) (items : list value)
    : result (list value) :=
  match items with
  | [] => Ret []
  | item :: rest =>
      item' <- tag_item page all_results item ;;
      rest' <- tag_items page all_results rest ;;
      Ret (item' :: rest')
  end.

Section Search.

Variable http_get : Z -> result value.
Variable progress_callback : option (Z -> Z -> Z -> result unit).
Variable max_pages : Z.
Variable delay_seconds : Z.

(** [_make_request(query, start, **kwargs)], lines 223-251: a request or
    decode failure is answered with [None]. *)
Definition _make_request (start : Z) : result value :=
  match http_get start with
  | Ret body => Ret body
  | Raise RequestException => Ret VNone
  | Raise JSONDecodeError => Ret VNone
  | Raise e => Raise e
  end.

(** The [try] block of lines 186-206.  [Ret None] is a [break], [Ret (Some
    l)] is the new value of [all_results]. *)
Definition try_block (page : Z) (all_results : list value)
    : result (option (list value)) :=
  results <- _make_request (start_index_of page) ;;
  if negb (truthy results) then Ret None
  else
    items <- py_get results (lit "items") (VList []) ;;
    if negb (truthy items) then Ret None
    else
      elements <- py_iter items ;;
      tagged <- tag_items page all_results elements ;;
      Ret (Some (all_results ++ tagged)).

(** The [try] block with its handler [except Exception: ... break]. *)
Definition fetch_page (page : Z) (all_results : list value)
    : option (list value) :=
  match try_block page all_results with
  | Ret next => next
  | Raise _ => None
  end.

(** [if progress_callback is not None: progress_callback(a, b, c)] followed
    by the rest [k] of the run; an exception of the callback ends the run. *)
Definition call_progress (a b c : Z) (k : list event * result (list value))
    : list event * result (list value) :=
  match progress_callback with
  | None => k
  | Some callback =>
      match callback a b c with
      | Ret _ => (EvProgress a b c :: fst k, snd k)
      | Raise e => ([EvProgress a b c], Raise e)
      end
  end.

(** Lines 213-215: what the call of [time.sleep] does, when there is one,
    and the event of a sleep that took place. *)
Definition delay_outcome (page : Z) : result unit :=
  if (page <? max_pages)%Z && (0 <? delay_seconds)%Z
  then time_sleep delay_seconds
  else Ret tt.

Definition delay_events (page : Z) : list event :=
  if (page <? max_pages)%Z && (0 <? delay_seconds)%Z
  then [EvSleep page delay_seconds]
  else [].

(** The loop [for page in range(1, max_pages + 1)], lines 177-218, with
    [remaining] iterations to go.  The sleep of line 215 stands outside the
    [try]: when it raises, the run ends with that exception. *)
Fixpoint search_loop (remaining : nat) (page : Z) (all_results : list value)
    : list event * result (list value) :=
  match remaining with
  | O => ([], Ret all_results)
  | S remaining' =>
      call_progress (page - 1) max_pages (Z.of_nat (List.length all_results))
        (let rest :=
           match fetch_page page all_results with
           | None => ([], Ret all_results)
           | Some all_results' =>
               match delay_outcome page with
               | Raise e => ([], Raise e)
               | Ret _ =>
                   let after :=
                     call_progress page max_pages
                       (Z.of_nat (List.length all_results'))
                       (search_loop remaining' (page + 1) all_results') in
                   (delay_events page ++ fst after, snd after)
               end
           end in
         (EvRequest page (start_index_of page) :: fst rest, snd rest))
  end.

(** [search(query, max_pages, delay_seconds, progress_callback)] *)
Definition search : list event * result (list value) :=
  search_loop (Z.to_nat max_pages) 1 [].

End Search.


Definition is_sleep (ev : event) : bool :=
  match ev with
  | EvSleep _ _ => true
  | _ => false
  end.

End GoogleSearchAPI.

Import GoogleSearchAPI.

(** ** Vocabulary of the statements *)

(** The key [k] of [d] is absent or bound to a string. *)
Definition str_or_absent (k : str) (d : dict) : bool :=
  match dict_get k d with
  | None => true
  | Some v => is_str v
  end.

(** The key [k] of [d] is absent or bound to a value that tests false (an
    empty list, for a field that holds lists). *)
Definition absent_or_falsy (k : str) (d : dict) : bool :=
  match dict_get k d with
  | None => true
  | Some v => negb (truthy v)
  end.

(** The hint [k] of a pagemap can be read: it is absent, or a list that is
    empty or starts with an object whose [field] is absent or a string, or a
    value that is neither a list nor a non-empty string (such a value tests
    false, or fails the subscript [[0]] with an exception the handler of
    line 116 lists).  What is excluded is a first entry that is not an
    object, on which [.get] does not exist, and a [field] that is not a
    string. *)
Definition hint_ok (k field : str) (pagemap : dict) : bool :=
  match dict_get k pagemap with
  | None => true
  | Some (VList (VDict entry :: _)) => str_or_absent field entry
  | Some (VList (_ :: _)) => false
  | Some (VStr (_ :: _)) => false
  | Some _ => true
  end.

(** The pagemap is absent, or an object whose two hints can be read, or not
    an object at all. *)
Definition pagemap_ok (search_result : dict) : bool :=
  match dict_get (lit "pagemap") search_result with
  | None => true
  | Some (VDict pagemap) =>
      hint_ok (lit "cse_image") (lit "src") pagemap &&
      hint_ok (lit "metatags") (lit "og:image") pagemap
  | Some _ => true
  end.

(** A raw result as the data model describes it: [title], [snippet] and
    [link] are strings when present, and the hints of [pagemap] can be read.
    Every field may be absent or empty. *)
Definition well_typed_result (search_result : dict) : bool :=
  str_or_absent (lit "title") search_result &&
  str_or_absent (lit "snippet") search_result &&
  str_or_absent (lit "link") search_result &&
  pagemap_ok search_result.

(** The five fields of a profile, in the order the source writes them. *)
Definition profile_of (name title link description image : value) : dict :=
  [ (lit "name", name); (lit "title", title); (lit "link", link);
    (lit "description", description); (lit "image", image) ].

(** Lines 128-131 of [_clean_description]: entities replaced, whitespace
    collapsed and trimmed. *)
Definition cleaned_snippet (snippet : str) : str :=
  join (lit " ")
       (split_whitespace
          (replace (lit "&nbsp;") (lit " ") (replace (lit "&amp;") (lit "&") snippet))).

(** A page whose request returns an object with a non-empty [items] list of
    objects [ds]. *)
Definition page_returns (http_get : Z -> result value) (page : Z)
    (ds : list dict) : Prop :=
  exists body,
    http_get (start_index_of page) = Ret (VDict body) /\
    dict_get (lit "items") body = Some (VList (map VDict ds)) /\
    ds <> [].

(** The objects of a list of values, when all of them are objects. *)
Fixpoint dicts_of (l : list value) : option (list dict) :=
  match l with
  | [] => Some []
  | VDict d :: rest =>
      match dicts_of rest with
      | Some ds => Some (d :: ds)
      | None => None
      end
  | _ :: _ => None
  end.

(** The items the upstream returns for [page]: the [items] list of the
    body, when the request returns an object with a list of objects there;
    no items otherwise. *)
Definition page_items (http_get : Z -> result value) (page : Z) : list dict :=
  match http_get (start_index_of page) with
  | Ret (VDict body) =>
      match dict_get (lit "items") body with
      | Some (VList l) =>
          match dicts_of l with
          | Some ds => ds
          | None => []
          end
      | _ => []
      end
  | _ => []
  end.

(** What the loop of lines 201-203 makes of one item of [page] when
    [before] results were accumulated before the page. *)
Definition tagged (page : Z) (before : nat) (d : dict) : value :=
  VDict (dict_set (lit "result_index") (VInt (Z.of_nat before + 1))
           (dict_set (lit "page_number") (VInt page) d)).

(** The first rule of the title in the words of the specification:
    everything after the first occurrence of the delimiter, without the
    trailing suffix marker, trimmed; used if non-empty. *)
Fixpoint after_first (sep s : str) : option str :=
  match s with
  | [] => None
  | _ :: s' =>
      if startswith sep s then Some (skipn (List.length sep) s)
      else after_first sep s'
  end.

Definition without_trailing (suffix s : str) : str :=
  if startswith (rev suffix) (rev s)
  then firstn (List.length s - List.length suffix) s
  else s.

Definition title_as_specified (title : str) : option str :=
  match after_first dash title with
  | Some rest =>
      let professional_title := strip (without_trailing linkedin_suffix rest) in
      if nonempty professional_title then Some professional_title else None
  | None => None
  end.

(** The events of a trace that come after the request of [page]. *)
Fixpoint after_request (page : Z) (trace : list event) : list event :=
  match trace with
  | [] => []
  | EvRequest q _ :: rest =>
      if (q =? page)%Z then rest else after_request page rest
  | _ :: rest => after_request page rest
  end.

(** The results of [count] successful pages from [page] on, page [q]
    returning the items [items q], with [before] results accumulated
    earlier: page after page, each item tagged with its page and with the
    number of results accumulated before its page, plus one. *)
Fixpoint tagged_pages (items : Z -> list dict) (count : nat) (page : Z)
    (before : nat) : list value :=
  match count with
  | O => []
  | S count' =>
      map (tagged page before) (items page) ++
      tagged_pages items count' (page + 1) (before + List.length (items page))
  end.



(** Example runs: an upstream with a single page of two items, and one with
    a single page of one item. *)
Definition two_item_upstream (start : Z) : result value :=
  if (start =? 1)%Z
  then Ret (VDict [ (lit "items",
                     VList [ VDict [(lit "title", VStr (lit "a"))];
                             VDict [(lit "title", VStr (lit "b"))] ]) ])
  else Ret (VDict []).

Definition one_item_upstream (start : Z) : result value :=
  if (start =? 1)%Z
  then Ret (VDict [ (lit "items", VList [ VDict [(lit "title", VStr (lit "a"))] ]) ])
  else Raise RequestException.

Definition quiet_callback (a b c : Z) : result unit := Ret tt.

(** An upstream whose first page has one item and whose later pages have
    none. *)
Definition one_page_upstream (start : Z) : result value :=
  if (start =? 1)%Z
  then Ret (VDict [ (lit "items", VList [ VDict [(lit "title", VStr (lit "a"))] ]) ])
  else Ret (VDict [ (lit "items", VList []) ]).

(** A constructor of tables, for the examples: the table is the list of
    records with the column names. *)
Definition listed_frame (records : list dict) (cols : list str)
    : result (list dict * list str) :=
  Ret (records, cols).

(** An upstream every page of which has one item. *)
Definition endless_upstream (start : Z) : result value :=
  Ret (VDict [ (lit "items", VList [ VDict [(lit "title", VStr (lit "a"))] ]) ]).

(** ** Module-level functions *)

Definition profile_columns : list str :=
  [lit "name"; lit "title"; lit "link"; lit "description"; lit "image"].

(** The call [LinkedInProfileExtractor.extract_profile_info(result)] on an
    element of [items]: the function starts with [search_result.get], which
    only an object has. *)
Definition extract_item (item : value) : result dict :=
  match item with
  | VDict search_result => extract_profile_info search_result
  | _ => Raise AttributeError
  end.

(** The loop of lines 255-258: the profiles of the items, in order; the
    first exception ends it. *)
Fixpoint extract_all (items : list value) : result (list dict) :=
  match items with
  | [] => Ret []
  | item :: rest =>
      profile_info <- extract_item item ;;
      profiles <- extract_all rest ;;
      Ret (profile_info :: profiles)
  end.

Section Table.

(** The constructor [pd.DataFrame(records, columns=...)] belongs to pandas,
    not to this repository: it is taken as it comes, a function from the
    records and the column names to a table of some type, which may raise
    (it does on strings it cannot encode). *)
Variable Frame : Type.
Variable pd_DataFrame : list dict -> list str -> result Frame.

(** [profiles_to_dataframe(items)], lines 254-259. *)
Definition profiles_to_dataframe (items : list value) : result Frame :=
  profiles <- extract_all items ;;
  pd_DataFrame profiles profile_columns.

End Table.

(** ** More vocabulary *)

(** [s] neither starts nor ends with whitespace. *)
Definition trimmed (s : str) : bool :=
  match s with
  | [] => true
  | c :: _ => negb (isspace c)
  end &&
  match rev s with
  | [] => true
  | c :: _ => negb (isspace c)
  end.

(** Every whitespace character of [s] is a plain space, U+0020, and is
    followed by a character that is not whitespace. *)
Fixpoint single_spaced (s : str) : bool :=
  match s with
  | [] => true
  | c :: s' =>
      (if isspace c
       then (c =? 32)%N &&
            match s' with
            | [] => false
            | d :: _ => negb (isspace d)
            end
       else true) && single_spaced s'
  end.

(** The exceptions that inspecting a value can raise. *)
Definition is_value_error (e : exn) : bool :=
  match e with
  | KeyError | IndexError | TypeError | AttributeError => true
  | _ => false
  end.

(** The keys of a raw result the extraction reads. *)
Definition extraction_keys : list str :=
  [lit "title"; lit "snippet"; lit "link"; lit "pagemap"].

(** No character of [w] is whitespace. *)
Definition no_space (w : str) : bool := forallb (fun c => negb (isspace c)) w.

(** The requests of a trace, as pairs of page and start offset, and the
    calls of the callback, as triples of arguments. *)
Fixpoint requests_of (trace : list event) : list (Z * Z) :=
  match trace with
  | [] => []
  | EvRequest page start :: rest => (page, start) :: requests_of rest
  | _ :: rest => requests_of rest
  end.

Fixpoint progress_of (trace : list event) : list (Z * Z * Z) :=
  match trace with
  | [] => []
  | EvProgress a b c :: rest => (a, b, c) :: progress_of rest
  | _ :: rest => progress_of rest
  end.

(** The pages [page], [page + 1], ... ([count] of them) with their start
    offsets. *)
Fixpoint consecutive_requests (count : nat) (page : Z) : list (Z * Z) :=
  match count with
  | O => []
  | S count' => (page, start_index_of page) :: consecutive_requests count' (page + 1)
  end.


(** The event of a call of the callback, when there is a callback. *)
Definition called (progress_callback : option (Z -> Z -> Z -> result unit))
    (a b c : Z) : list event :=
  match progress_callback with
  | None => []
  | Some _ => [EvProgress a b c]
  end.

(** The callback raises [e] on the arguments [a], [b], [c]. *)
Definition callback_raises (progress_callback : option (Z -> Z -> Z -> result unit))
    (a b c : Z) (e : exn) : Prop :=
  exists callback, progress_callback = Some callback /\ callback a b c = Raise e.

(** One call of the callback reports no less than another: neither the
    pages completed nor the items accumulated go down. *)
Definition progress_le (x y : Z * Z * Z) : Prop :=
  (fst (fst x) <= fst (fst y))%Z /\ (snd x <= snd y)%Z.

(** The body of a response carries no items: it tests false, or its
    [items] are missing or test false. *)
Definition no_items (body : value) : bool :=
  negb (truthy body) ||
  match body with
  | VDict d => absent_or_falsy (lit "items") d
  | _ => false
  end.

(** The untagged items of [count] pages from [page] on. *)
Fixpoint raw_pages (items : Z -> list dict) (count : nat) (page : Z) : list value :=
  match count with
  | O => []
  | S count' => map VDict (items page) ++ raw_pages items count' (page + 1)
  end.

(** ** Properties of the string operations *)

Lemma startswith_app (p s : str) :
  startswith p s = true -> s = p ++ skipn (List.length p) s.
Proof.
  revert s. induction p as [| a p IH]; intros s H; [reflexivity |].
  destruct s as [| b s]; [discriminate |].
  cbn [startswith] in H. apply andb_true_iff in H. destruct H as [Hab Hp].
  apply N.eqb_eq in Hab. subst b.
  cbn [List.length skipn app]. f_equal. exact (IH _ Hp).
Qed.

Lemma startswith_length (p s : str) :
  startswith p s = true -> (List.length p <= List.length s)%nat.
Proof.
  intro H. rewrite (startswith_app _ _ H). rewrite length_app. lia.
Qed.

Lemma join_cons_head (sep : str) (c : char) (h : str) (t : list str) :
  join sep ((c :: h) :: t) = c :: join sep (h :: t).
Proof. destruct t; reflexivity. Qed.

Lemma join_nil_head (sep : str) (h : str) (t : list str) :
  join sep ([] :: h :: t) = sep ++ join sep (h :: t).
Proof. reflexivity. Qed.

(** [s.replace(old, new) == new.join(s.split(old))] *)
Lemma replace_from_is_join_split (old new : str) :
  forall (s : str) (skip : nat),
    replace_from old new skip s =
    join new (fst (split_from old skip s) :: snd (split_from old skip s)).
Proof.
  induction s as [| c s IH]; intro skip; [reflexivity |].
  cbn [replace_from split_from]. destruct skip as [| k]; [| apply IH].
  destruct (startswith old (c :: s)).
  - rewrite IH. destruct (split_from old (List.length old - 1) s). reflexivity.
  - rewrite IH. destruct (split_from old 0 s) as [h t].
    cbn [fst snd]. rewrite join_cons_head. reflexivity.
Qed.

Lemma replace_is_join_split (old new s : str) :
  replace old new s = join new (split old s).
Proof.
  unfold replace, split. rewrite replace_from_is_join_split.
  destruct (split_from old 0 s). reflexivity.
Qed.

(** Joining the segments of a split with the separator gives the string
    back: [sep.join(s.split(sep)) == s]. *)
Lemma join_split_from (sep : str) :
  sep <> [] ->
  forall (s : str) (skip : nat),
    (skip <= List.length s)%nat ->
    join sep (fst (split_from sep skip s) :: snd (split_from sep skip s)) =
    skipn skip s.
Proof.
  intro Hsep. induction s as [| c s IH]; intros skip Hskip.
  { destruct skip; [reflexivity | cbn in Hskip; lia]. }
  cbn [split_from]. destruct skip as [| k].
  - destruct (startswith sep (c :: s)) eqn:Hstart.
    + assert (Hlen := startswith_length _ _ Hstart). cbn [List.length] in Hlen.
      specialize (IH (List.length sep - 1)%nat ltac:(lia)).
      destruct (split_from sep (List.length sep - 1) s) as [h t].
      cbn [fst snd] in *. rewrite join_nil_head, IH.
      cbn [skipn]. rewrite (startswith_app _ _ Hstart).
      destruct sep as [| a sep']; [congruence |].
      cbn [List.length skipn].
      replace (S (List.length sep') - 1)%nat with (List.length sep') by lia.
      reflexivity.
    + specialize (IH 0%nat ltac:(lia)).
      destruct (split_from sep 0 s) as [h t]. cbn [fst snd] in *.
      rewrite join_cons_head, IH. reflexivity.
  - cbn [List.length] in Hskip. cbn [skipn]. apply IH. lia.
Qed.

Lemma join_split (sep s : str) : sep <> [] -> join sep (split sep s) = s.
Proof.
  intro Hsep. unfold split.
  generalize (@join_split_from sep Hsep s 0 ltac:(lia)).
  destruct (split_from sep 0 s). auto.
Qed.

(** A string that contains the separator splits into two segments or more,
    so the test [len(parts) > 1] of line 80 never fails. *)
Lemma contains_split (sep s : str) :
  sep <> [] ->
  contains sep s = true ->
  (1 < List.length (split sep s))%nat.
Proof.
  intro Hsep. unfold split.
  induction s as [| c s IH]; intro Hc.
  - destruct sep; [congruence | discriminate].
  - cbn [contains] in Hc. cbn [split_from].
    destruct (startswith sep (c :: s)).
    + destruct (split_from sep (List.length sep - 1) s). cbn. lia.
    + cbn [orb] in Hc. specialize (IH Hc).
      destruct (split_from sep 0 s). exact IH.
Qed.

Lemma lstrip_head (s : str) (c : char) (r : str) :
  lstrip s = c :: r -> isspace c = false.
Proof.
  induction s as [| a s IH]; [discriminate |].
  cbn [lstrip]. destruct (isspace a) eqn:Ha; [exact IH |].
  intro H. injection H as <- _. exact Ha.
Qed.

Lemma lstrip_idempotent (s : str) : lstrip (lstrip s) = lstrip s.
Proof.
  destruct (lstrip s) as [| c r] eqn:H; [reflexivity |].
  cbn [lstrip]. rewrite (lstrip_head _ H). reflexivity.
Qed.

Lemma lstrip_length (s : str) : (List.length (lstrip s) <= List.length s)%nat.
Proof.
  induction s as [| a s IH]; [reflexivity |].
  cbn [lstrip]. destruct (isspace a); cbn [List.length]; lia.
Qed.

(** The result of [strip] neither ends nor starts with whitespace. *)
Lemma strip_last (s : str) (c : char) (r : str) :
  strip s = r ++ [c] -> isspace c = false.
Proof.
  unfold strip, rstrip. intro H.
  apply (f_equal (@rev char)) in H. rewrite rev_involutive, rev_unit in H.
  exact (lstrip_head _ H).
Qed.

Lemma lstrip_suffix (s : str) :
  exists pre, s = pre ++ lstrip s /\ forallb isspace pre = true.
Proof.
  induction s as [| a s (pre & Hs & Hpre)]; [exists []; auto |].
  cbn [lstrip]. destruct (isspace a) eqn:Ha.
  - exists (a :: pre). cbn [app forallb]. rewrite Ha, Hpre.
    split; [congruence | reflexivity].
  - exists []. auto.
Qed.

Lemma strip_head (s : str) (c : char) (r : str) :
  strip s = c :: r -> isspace c = false.
Proof.
  unfold strip, rstrip. intro H.
  destruct (lstrip_suffix (rev (lstrip s))) as (pre & Hrev & _).
  apply (f_equal (@rev char)) in Hrev.
  rewrite rev_involutive, rev_app_distr, H in Hrev.
  cbn [app] in Hrev. exact (lstrip_head _ Hrev).
Qed.

(** A replacement by a string that is not longer than the replaced one does
    not lengthen the text. *)
Lemma replace_from_length (old new : str) :
  (List.length new <= List.length old)%nat ->
  forall (s : str) (skip : nat),
    (skip <= List.length s)%nat ->
    (List.length (replace_from old new skip s) + skip <= List.length s)%nat.
Proof.
  intro Hnew. induction s as [| c s IH]; intros skip Hskip.
  { cbn in *. lia. }
  cbn [replace_from List.length] in *. destruct skip as [| k].
  - destruct (startswith old (c :: s)) eqn:Hstart.
    + assert (Hlen := startswith_length _ _ Hstart). cbn [List.length] in Hlen.
      rewrite length_app.
      destruct old as [| a old'].
      * cbn [List.length] in *. specialize (IH (0 - 1)%nat ltac:(lia)). lia.
      * cbn [List.length] in *.
        specialize (IH (S (List.length old') - 1)%nat ltac:(lia)). lia.
    + cbn [List.length]. specialize (IH 0%nat ltac:(lia)). lia.
  - specialize (IH k ltac:(lia)). lia.
Qed.

Lemma replace_length (old new s : str) :
  (List.length new <= List.length old)%nat ->
  (List.length (replace old new s) <= List.length s)%nat.
Proof.
  intro Hnew. unfold replace.
  generalize (@replace_from_length old new Hnew s 0 ltac:(lia)). lia.
Qed.

Lemma join_length (sep x : str) (rest : list str) :
  List.length (join sep (x :: rest)) =
  (List.length x +
   list_sum (map (fun y => List.length sep + List.length y) rest))%nat.
Proof.
  revert x. induction rest as [| y rest IH]; intro x.
  - cbn. lia.
  - change (join sep (x :: y :: rest)) with (x ++ sep ++ join sep (y :: rest)).
    rewrite !length_app, IH. unfold list_sum. cbn [map fold_right]. lia.
Qed.

Lemma words_from_length (s : str) :
  (List.length (fst (words_from s)) +
   list_sum (map (fun y => 1 + List.length y) (snd (words_from s)))
   <= List.length s)%nat.
Proof.
  induction s as [| c s IH]; [cbn; lia |].
  cbn [words_from]. destruct (words_from s) as [w ws]. cbn [fst snd] in IH.
  destruct (isspace c); cbn [fst snd List.length].
  - destruct w; unfold list_sum in *; cbn [map fold_right List.length] in *; lia.
  - lia.
Qed.

(** Collapsing the whitespace does not lengthen the text. *)
Lemma join_split_whitespace_length (s : str) :
  (List.length (join (lit " ") (split_whitespace s)) <= List.length s)%nat.
Proof.
  unfold split_whitespace. generalize (words_from_length s).
  destruct (words_from s) as [w ws]. cbn [fst snd].
  destruct w as [| c w].
  - destruct ws as [| x rest]; [cbn; lia |].
    rewrite join_length. unfold list_sum. cbn [map fold_right List.length].
    change (List.length (lit " ")) with 1%nat. lia.
  - rewrite join_length. change (List.length (lit " ")) with 1%nat. lia.
Qed.

(** ** Properties of the extractor *)

Lemma nonempty_false (s : str) : nonempty s = false -> s = [].
Proof. destruct s; [reflexivity | discriminate]. Qed.

Lemma nonempty_true (s : str) : s <> [] -> nonempty s = true.
Proof. destruct s; [congruence | reflexivity]. Qed.

Lemma is_str_inv (v : value) : is_str v = true -> exists s, v = VStr s.
Proof. destruct v; try discriminate; eauto. Qed.

(** With a non-empty title the name is computed from the text of the title:
    the part before the first [" - "] of the title without its suffix. *)
Lemma name_of_nonempty_title (title : str) :
  title <> [] ->
  _extract_name_from_title title =
  sub_honorific (strip (hd [] (split dash (replace linkedin_suffix [] title)))).
Proof.
  intro Hne. unfold _extract_name_from_title.
  rewrite (nonempty_true Hne). cbn [negb].
  unfold split. destruct (split_from dash 0 (replace linkedin_suffix [] title)).
  reflexivity.
Qed.

(** The first attempt of the title rule reads the second segment of the
    split, [parts[1]], and nothing after it. *)
Lemma title_from_second_segment (title snippet : str) :
  contains dash title = true ->
  strip (replace linkedin_suffix [] (nth 1 (split dash title) [])) <> [] ->
  _extract_title_from_content title snippet =
  strip (replace linkedin_suffix [] (nth 1 (split dash title) [])).
Proof.
  intros Hc Hne. unfold _extract_title_from_content, title_from_title.
  rewrite Hc.
  assert (Hl : (1 < List.length (split dash title))%nat).
  { apply contains_split; [discriminate | exact Hc]. }
  apply Nat.ltb_lt in Hl. rewrite Hl.
  rewrite (nonempty_true Hne). reflexivity.
Qed.

(** On a title with one delimiter the code and the specification agree. *)
Example title_with_one_delimiter :
  title_from_title (lit "Jane Doe - Senior Engineer | LinkedIn") =
    Some (lit "Senior Engineer") /\
  title_as_specified (lit "Jane Doe - Senior Engineer | LinkedIn") =
    Some (lit "Senior Engineer").
Proof. split; reflexivity. Qed.

(** C1.  The claim asks for everything after the first [" - "]; the code
    reads [parts[1]], the segment between the first and the second
    delimiter.  On the title ["A - B - C | LinkedIn"] the extracted title is
    ["B"] whatever the snippet is, where the claim (and the comment of line
    81) says ["B - C"]. *)
Theorem title_keeps_second_segment_only :
  forall snippet : str,
    _extract_title_from_content (lit "A - B - C | LinkedIn") snippet = lit "B" /\
    title_as_specified (lit "A - B - C | LinkedIn") = Some (lit "B - C") /\
    lit "B" <> lit "B - C" /\
    extract_profile_info [(lit "title", VStr (lit "A - B - C | LinkedIn"))] =
    Ret (profile_of (VStr (lit "A")) (VStr (lit "B")) (VStr []) (VStr NA) (VStr [])).
Proof.
  intro snippet.
  split; [reflexivity | split; [reflexivity | split; [discriminate | reflexivity]]].
Qed.

(** C10.  A non-empty title whose first segment is used up by the removal
    of the suffix, the split and the trimming gives the empty name, not the
    sentinel: the sentinel is returned for the empty title only. *)
Theorem exhausted_title_gives_empty_name :
  forall title : str,
    title <> [] ->
    strip (hd [] (split dash (replace linkedin_suffix [] title))) = [] ->
    _extract_name_from_title title = [] /\
    _extract_name_from_title title <> NA /\
    name_of_value (VStr title) = Ret (VStr []).
Proof.
  intros title Hne Hstrip.
  assert (H : _extract_name_from_title title = []).
  { rewrite (name_of_nonempty_title Hne), Hstrip. reflexivity. }
  split; [exact H | split].
  - rewrite H. discriminate.
  - cbn [name_of_value]. rewrite H. reflexivity.
Qed.

(** The title [" | LinkedIn"] is such a title. *)
Lemma exhausted_title_gives_empty_name_witness :
  lit " | LinkedIn" <> [] /\
  _extract_name_from_title (lit " | LinkedIn") = [] /\
  _extract_name_from_title (lit " | LinkedIn") <> NA /\
  name_of_value (VStr (lit " | LinkedIn")) = Ret (VStr []).
Proof.
  split; [discriminate |].
  apply (@exhausted_title_gives_empty_name (lit " | LinkedIn")).
  - discriminate.
  - reflexivity.
Defined.

(** The sentinel itself comes from the empty title. *)
Lemma empty_title_gives_sentinel : _extract_name_from_title [] = NA.
Proof. reflexivity. Qed.

(** *** The image rule *)

Ltac unfold_image :=
  unfold _extract_image_url, and_truthy, dict_get_default, py_in, py_getitem,
    py_first, py_get, bind, try_except.

(** C3, as stated, fails: a [cse_image] entry whose [src] is the empty
    string is returned as it is, and [og:image] is not consulted. *)
Lemma image_empty_src_not_og_image :
  let search_result :=
    [ (lit "pagemap",
       VDict [ (lit "cse_image", VList [VDict [(lit "src", VStr [])]]);
               (lit "metatags",
                VList [VDict [(lit "og:image", VStr (lit "http://a/b.png"))]]) ]) ] in
  _extract_image_url search_result = Ret (VStr []) /\
  _extract_image_url search_result <> Ret (VStr (lit "http://a/b.png")).
Proof. split; [reflexivity | discriminate]. Qed.

(** The cases of the image rule on a pagemap that is an object. *)
Lemma image_rule_cases :
  forall (search_result pagemap : dict),
    dict_get_default search_result (lit "pagemap") (VDict []) = VDict pagemap ->
    (forall entry rest,
        dict_get (lit "cse_image") pagemap = Some (VList (VDict entry :: rest)) ->
        _extract_image_url search_result =
        Ret (dict_get_default entry (lit "src") (VStr []))) /\
    (absent_or_falsy (lit "cse_image") pagemap = true ->
     forall entry rest,
        dict_get (lit "metatags") pagemap = Some (VList (VDict entry :: rest)) ->
        _extract_image_url search_result =
        Ret (dict_get_default entry (lit "og:image") (VStr []))) /\
    (absent_or_falsy (lit "cse_image") pagemap = true ->
     absent_or_falsy (lit "metatags") pagemap = true ->
     _extract_image_url search_result = Ret (VStr [])).
Proof.
  intros search_result pagemap Hpm.
  assert (Hcse : absent_or_falsy (lit "cse_image") pagemap = true ->
                 and_truthy (py_in (lit "cse_image") (VDict pagemap))
                            (py_getitem (VDict pagemap) (lit "cse_image")) = Ret false).
  { unfold absent_or_falsy, and_truthy, py_in, py_getitem, bind.
    destruct (dict_get (lit "cse_image") pagemap) as [v|]; [|reflexivity].
    intro H. apply negb_true_iff in H. rewrite H. reflexivity. }
  split; [|split].
  - intros entry rest Hc. unfold _extract_image_url. rewrite Hpm.
    unfold and_truthy, py_in, py_getitem, bind. rewrite Hc. reflexivity.
  - intros Hc entry rest Hm. unfold _extract_image_url. rewrite Hpm.
    rewrite (Hcse Hc). cbn [bind].
    unfold and_truthy, py_in, py_getitem, bind. rewrite Hm. reflexivity.
  - intros Hc Hm. unfold _extract_image_url. rewrite Hpm.
    rewrite (Hcse Hc). cbn [bind].
    unfold absent_or_falsy in Hm.
    unfold and_truthy, py_in, py_getitem, bind.
    destruct (dict_get (lit "metatags") pagemap) as [v|]; [|reflexivity].
    apply negb_true_iff in Hm. rewrite Hm. reflexivity.
Qed.

(** C3, amended.  The test of the first rule is on the list [cse_image],
    not on the URL: when the list is present and starts with an object, the
    image is that object's [src] ([""] if it has none), also when [src] is
    empty.  When [cse_image] is absent or empty and [metatags] starts with an
    object, the image is that object's [og:image] ([""] if it has none).
    When both are absent or empty, and when there is no pagemap, the image
    is [""]. *)
Theorem image_preference_order :
  forall (search_result pagemap : dict),
    dict_get_default search_result (lit "pagemap") (VDict []) = VDict pagemap ->
    (forall entry rest,
        dict_get (lit "cse_image") pagemap = Some (VList (VDict entry :: rest)) ->
        _extract_image_url search_result =
        Ret (dict_get_default entry (lit "src") (VStr []))) /\
    (absent_or_falsy (lit "cse_image") pagemap = true ->
     forall entry rest,
        dict_get (lit "metatags") pagemap = Some (VList (VDict entry :: rest)) ->
        _extract_image_url search_result =
        Ret (dict_get_default entry (lit "og:image") (VStr []))) /\
    (absent_or_falsy (lit "cse_image") pagemap = true ->
     absent_or_falsy (lit "metatags") pagemap = true ->
     _extract_image_url search_result = Ret (VStr [])).
Proof. exact image_rule_cases. Qed.

(** The examples of the specification, and the empty [src] that wins over a
    present [og:image]. *)
Lemma image_preference_order_witness :
  _extract_image_url
    [ (lit "pagemap",
       VDict [ (lit "cse_image", VList [VDict [(lit "src", VStr [])]]);
               (lit "metatags",
                VList [VDict [(lit "og:image", VStr (lit "http://a/b.png"))]]) ]) ] =
  Ret (VStr []).
Proof.
  exact (proj1 (@image_preference_order
                  [ (lit "pagemap",
                     VDict [ (lit "cse_image", VList [VDict [(lit "src", VStr [])]]);
                             (lit "metatags",
                              VList [VDict [(lit "og:image", VStr (lit "http://a/b.png"))]]) ]) ]
                  [ (lit "cse_image", VList [VDict [(lit "src", VStr [])]]);
                    (lit "metatags",
                     VList [VDict [(lit "og:image", VStr (lit "http://a/b.png"))]]) ]
                  eq_refl)
                [(lit "src", VStr [])] [] eq_refl).
Defined.

Example image_from_cse_image :
  _extract_image_url
    [ (lit "pagemap",
       VDict [ (lit "cse_image", VList [VDict [(lit "src", VStr (lit "http://x/y.jpg"))]]) ]) ] =
  Ret (VStr (lit "http://x/y.jpg")).
Proof. reflexivity. Qed.

Example image_from_og_image :
  _extract_image_url
    [ (lit "pagemap",
       VDict [ (lit "metatags",
                VList [VDict [(lit "og:image", VStr (lit "http://a/b.png"))]]) ]) ] =
  Ret (VStr (lit "http://a/b.png")).
Proof. reflexivity. Qed.

Example image_from_nothing : _extract_image_url [] = Ret (VStr []).
Proof. reflexivity. Qed.

(** A pagemap that is not an object never gives an image and never raises:
    each such value fails the membership test or the subscript with an
    exception the handler of line 116 catches. *)
Lemma image_of_non_object_pagemap (search_result : dict) (v : value) :
  dict_get (lit "pagemap") search_result = Some v ->
  (forall d, v <> VDict d) ->
  _extract_image_url search_result = Ret (VStr []).
Proof.
  intros Hv Hnd. unfold_image. rewrite Hv.
  destruct v as [| b | z | s | l | d]; try reflexivity.
  - destruct (contains (lit "cse_image") s); [reflexivity |].
    destruct (contains (lit "metatags") s); reflexivity.
  - destruct (existsb _ l); [reflexivity |].
    destruct (existsb _ l); reflexivity.
  - exfalso. apply (Hnd d). reflexivity.
Qed.

(** A hint that tests true but cannot be subscripted (a number, [True], a
    non-empty object) ends the extraction with no image, through the
    handler. *)
Lemma image_of_failing_cse_image (search_result pagemap : dict) (v : value) (e : exn) :
  dict_get_default search_result (lit "pagemap") (VDict []) = VDict pagemap ->
  dict_get (lit "cse_image") pagemap = Some v ->
  truthy v = true ->
  py_first v = Raise e ->
  caught_by_image e = true ->
  _extract_image_url search_result = Ret (VStr []).
Proof.
  intros Hpm Hc Ht Hfirst Hcaught. unfold _extract_image_url. rewrite Hpm.
  unfold and_truthy, py_in, py_getitem, bind. rewrite Hc, Ht, Hfirst.
  cbn [try_except]. rewrite Hcaught. reflexivity.
Qed.

Lemma image_of_failing_metatags (search_result pagemap : dict) (v : value) (e : exn) :
  dict_get_default search_result (lit "pagemap") (VDict []) = VDict pagemap ->
  absent_or_falsy (lit "cse_image") pagemap = true ->
  dict_get (lit "metatags") pagemap = Some v ->
  truthy v = true ->
  py_first v = Raise e ->
  caught_by_image e = true ->
  _extract_image_url search_result = Ret (VStr []).
Proof.
  intros Hpm Hcse Hm Ht Hfirst Hcaught. unfold _extract_image_url. rewrite Hpm.
  unfold absent_or_falsy in Hcse.
  unfold and_truthy, py_in, py_getitem, bind.
  destruct (dict_get (lit "cse_image") pagemap) as [c|].
  - apply negb_true_iff in Hcse. rewrite Hcse, Hm, Ht, Hfirst.
    cbn [try_except]. rewrite Hcaught. reflexivity.
  - rewrite Hm, Ht, Hfirst. cbn [try_except]. rewrite Hcaught. reflexivity.
Qed.

(** The three ways a readable hint can be. *)
Lemma hint_ok_cases (k field : str) (pagemap : dict) :
  hint_ok k field pagemap = true ->
  absent_or_falsy k pagemap = true \/
  (exists entry rest,
      dict_get k pagemap = Some (VList (VDict entry :: rest)) /\
      str_or_absent field entry = true) \/
  (exists v e,
      dict_get k pagemap = Some v /\ truthy v = true /\
      py_first v = Raise e /\ caught_by_image e = true).
Proof.
  unfold hint_ok, absent_or_falsy.
  destruct (dict_get k pagemap) as [v|]; [| auto].
  destruct v as [| b | z | s | l | d].
  - auto.
  - destruct b; [| auto]. intros _. right; right.
    exists (VBool true), TypeError. auto.
  - destruct (z =? 0)%Z eqn:Hz.
    + intros _. left. cbn [truthy]. rewrite Hz. reflexivity.
    + intros _. right; right. exists (VInt z), TypeError.
      cbn [truthy]. rewrite Hz. auto.
  - destruct s; [auto | discriminate].
  - destruct l as [| x rest]; [auto |].
    destruct x as [| | | | | entry]; try discriminate.
    intro Hs. right; left. eauto.
  - destruct d as [| kv d]; [auto |]. intros _. right; right.
    exists (VDict (kv :: d)), KeyError. auto.
Qed.

(** When the hints can be read the image is a string. *)
Lemma image_is_str (search_result : dict) :
  pagemap_ok search_result = true ->
  exists image, _extract_image_url search_result = Ret (VStr image).
Proof.
  unfold pagemap_ok. intro Hok.
  destruct (dict_get (lit "pagemap") search_result) as [v|] eqn:Hv.
  2:{ exists []. unfold_image. rewrite Hv. reflexivity. }
  assert (Hnd : (forall d, v <> VDict d) ->
                exists image, _extract_image_url search_result = Ret (VStr image)).
  { intro H. exists []. exact (image_of_non_object_pagemap _ Hv H). }
  destruct v as [| b | z | s | l | pagemap]; try (apply Hnd; discriminate).
  clear Hnd. apply andb_true_iff in Hok. destruct Hok as [Hcse Hmeta].
  assert (Hpm : dict_get_default search_result (lit "pagemap") (VDict []) = VDict pagemap).
  { unfold dict_get_default. rewrite Hv. reflexivity. }
  destruct (image_rule_cases search_result Hpm) as (Hfirst & Hsecond & Hnone).
  assert (Hfield : forall field entry,
             str_or_absent field entry = true ->
             exists image, dict_get_default entry field (VStr []) = VStr image).
  { intros field entry. unfold str_or_absent, dict_get_default.
    destruct (dict_get field entry) as [x|]; [apply is_str_inv | eauto]. }
  destruct (hint_ok_cases _ _ _ Hcse)
    as [Hf | [(entry & rest & Hc & Hs) | (c & e & Hc & Ht & Hp & He)]].
  - destruct (hint_ok_cases _ _ _ Hmeta)
      as [Hg | [(entry & rest & Hm & Hs) | (m & e & Hm & Ht & Hp & He)]].
    + exists []. exact (Hnone Hf Hg).
    + destruct (Hfield _ _ Hs) as [image Hi]. exists image.
      rewrite (Hsecond Hf entry rest Hm). rewrite Hi. reflexivity.
    + exists []. exact (image_of_failing_metatags _ Hpm Hf Hm Ht Hp He).
  - destruct (Hfield _ _ Hs) as [image Hi]. exists image.
    rewrite (Hfirst entry rest Hc). rewrite Hi. reflexivity.
  - exists []. exact (image_of_failing_cse_image _ Hpm Hc Ht Hp He).
Qed.

(** *** The description rule *)

Lemma clean_description_unfold (snippet : str) :
  _clean_description snippet =
  if negb (nonempty snippet) then NA
  else if (300 <? len (cleaned_snippet snippet))%Z
       then slice_to 300 (cleaned_snippet snippet) ++ lit "..."
       else cleaned_snippet snippet.
Proof. reflexivity. Qed.

Lemma firstn_app_exact (A : Type) (n : nat) (l m : list A) :
  List.length l = n -> firstn n (l ++ m) = l.
Proof.
  intros <-. rewrite firstn_app, Nat.sub_diag, firstn_O, app_nil_r.
  apply firstn_all.
Qed.

Lemma skipn_app_exact (A : Type) (n : nat) (l m : list A) :
  List.length l = n -> skipn n (l ++ m) = m.
Proof.
  intros <-. rewrite skipn_app, Nat.sub_diag, skipn_all. reflexivity.
Qed.

(** Cleaning never lengthens a snippet. *)
Lemma cleaned_snippet_length (snippet : str) :
  (len (cleaned_snippet snippet) <= len snippet)%Z.
Proof.
  unfold len, cleaned_snippet. apply inj_le.
  eapply Nat.le_trans; [apply join_split_whitespace_length |].
  eapply Nat.le_trans; [apply replace_length; cbn; lia |].
  apply replace_length. cbn. lia.
Qed.

(** C4, as stated, fails: the limit is tested on the cleaned text, not on
    the snippet.  A snippet of 301 characters, one letter followed by 300
    spaces, is cleaned to the letter alone and is not truncated. *)
Lemma long_snippet_short_description :
  let snippet := lit "a" ++ repeat 32%N 300 in
  (300 < len snippet)%Z /\
  _clean_description snippet = lit "a" /\
  List.length (_clean_description snippet) <> 303%nat.
Proof. vm_compute. repeat split; discriminate. Qed.

(** The truncated case. *)
Lemma long_cleaned_snippet_cut (snippet : str) :
  (300 < len (cleaned_snippet snippet))%Z ->
  _clean_description snippet = firstn 300 (cleaned_snippet snippet) ++ lit "..." /\
  List.length (_clean_description snippet) = 303%nat /\
  firstn 300 (_clean_description snippet) = firstn 300 (cleaned_snippet snippet) /\
  skipn 300 (_clean_description snippet) = lit "..." /\
  description_of_value (VStr snippet) =
  Ret (VStr (firstn 300 (cleaned_snippet snippet) ++ lit "...")) /\
  (300 < len snippet)%Z.
Proof.
  intros Hlong.
  assert (Hraw := cleaned_snippet_length snippet).
  assert (Hne : nonempty snippet = true).
  { destruct snippet; [vm_compute in Hlong; discriminate | reflexivity]. }
  assert (Heq : _clean_description snippet =
                firstn 300 (cleaned_snippet snippet) ++ lit "...").
  { rewrite clean_description_unfold, Hne. cbn [negb].
    apply Z.ltb_lt in Hlong. rewrite Hlong. reflexivity. }
  assert (Hlen : List.length (firstn 300 (cleaned_snippet snippet)) = 300%nat).
  { apply firstn_length_le. unfold len in Hlong. lia. }
  split; [exact Heq |]. split; [| split; [| split]].
  - rewrite Heq, length_app, Hlen. reflexivity.
  - rewrite Heq. rewrite (@firstn_app_exact _ _ _ _ Hlen). reflexivity.
  - rewrite Heq. apply (@skipn_app_exact _ _ _ _ Hlen).
  - split; [| lia]. cbn [description_of_value]. rewrite Heq. reflexivity.
Qed.

(** A snippet of at most 300 cleaned characters is the cleaned text. *)
Lemma short_cleaned_snippet_kept (snippet : str) :
  snippet <> [] ->
  (len (cleaned_snippet snippet) <= 300)%Z ->
  _clean_description snippet = cleaned_snippet snippet.
Proof.
  intros Hne Hshort. rewrite clean_description_unfold, (nonempty_true Hne).
  cbn [negb]. apply Z.ltb_ge in Hshort. rewrite Hshort. reflexivity.
Qed.

(** C4, amended.  When the cleaned snippet (entities replaced, whitespace
    collapsed and trimmed) is longer than 300 characters, the description is
    its first 300 characters followed by ["..."], 303 characters in all;
    the snippet is then longer than 300 characters too.  A snippet that is
    not empty and whose cleaned text has at most 300 characters, however
    long the snippet itself is, is returned cleaned and not truncated. *)
Theorem long_cleaned_snippet_truncated :
  forall snippet : str,
    ((300 < len (cleaned_snippet snippet))%Z ->
     _clean_description snippet = firstn 300 (cleaned_snippet snippet) ++ lit "..." /\
     List.length (_clean_description snippet) = 303%nat /\
     firstn 300 (_clean_description snippet) = firstn 300 (cleaned_snippet snippet) /\
     skipn 300 (_clean_description snippet) = lit "..." /\
     description_of_value (VStr snippet) =
     Ret (VStr (firstn 300 (cleaned_snippet snippet) ++ lit "...")) /\
     (300 < len snippet)%Z) /\
    (snippet <> [] ->
     (len (cleaned_snippet snippet) <= 300)%Z ->
     _clean_description snippet = cleaned_snippet snippet /\
     description_of_value (VStr snippet) = Ret (VStr (cleaned_snippet snippet))).
Proof.
  intro snippet. split.
  - apply long_cleaned_snippet_cut.
  - intros Hne Hshort.
    assert (H := short_cleaned_snippet_kept Hne Hshort).
    split; [exact H |]. cbn [description_of_value]. rewrite H. reflexivity.
Qed.

(** A cleaned text of 301 characters is cut, one of exactly 300 is not, and
    neither is a snippet of 301 characters that cleans to one. *)
Lemma long_cleaned_snippet_truncated_witness :
  List.length (_clean_description (repeat 97%N 301)) = 303%nat /\
  _clean_description (repeat 97%N 300) = repeat 97%N 300 /\
  _clean_description (lit "a" ++ repeat 32%N 300) = lit "a".
Proof.
  split; [| split].
  - refine (proj1 (proj2 (proj1 (@long_cleaned_snippet_truncated (repeat 97%N 301)) _))).
    vm_compute. reflexivity.
  - refine (proj1 (proj2 (@long_cleaned_snippet_truncated (repeat 97%N 300)) _ _)).
    + discriminate.
    + vm_compute. discriminate.
  - refine (proj1 (proj2 (@long_cleaned_snippet_truncated (lit "a" ++ repeat 32%N 300))
                         _ _)).
    + discriminate.
    + vm_compute. discriminate.
Defined.

(** *** The whole record *)

Lemma str_or_absent_default (k : str) (d : dict) :
  str_or_absent k d = true ->
  exists s, dict_get_default d k (VStr []) = VStr s /\
            (dict_get k d = None -> s = []).
Proof.
  unfold str_or_absent, dict_get_default.
  destruct (dict_get k d) as [v|].
  - intro H. destruct (is_str_inv _ H) as [s ->]. exists s.
    split; [reflexivity | discriminate].
  - intros _. exists []. split; reflexivity.
Qed.

(** On string title and snippet the record is made of the three string
    rules, the link as it is, and the image. *)
Lemma extract_profile_info_str (search_result : dict) (title snippet : str)
    (image : value) :
  dict_get_default search_result (lit "title") (VStr []) = VStr title ->
  dict_get_default search_result (lit "snippet") (VStr []) = VStr snippet ->
  _extract_image_url search_result = Ret image ->
  extract_profile_info search_result =
  Ret (profile_of (VStr (_extract_name_from_title title))
                  (VStr (_extract_title_from_content title snippet))
                  (dict_get_default search_result (lit "link") (VStr []))
                  (VStr (_clean_description snippet))
                  image).
Proof.
  intros Ht Hs Hi. unfold extract_profile_info. rewrite Ht, Hs, Hi.
  cbn [name_of_value title_of_values description_of_value bind].
  unfold _extract_title_from_content.
  destruct (title_from_title title); reflexivity.
Qed.

(** C5, as stated, fails on malformed fields: a [link] that is [null] is
    copied as it is, and a [cse_image] list of strings makes the extraction
    raise [AttributeError], which the handler of line 116 does not list. *)
Lemma malformed_fields_break_profile :
  extract_profile_info [(lit "link", VNone)] =
    Ret (profile_of (VStr NA) (VStr NA) VNone (VStr NA) (VStr [])) /\
  is_str VNone = false /\
  extract_profile_info
    [ (lit "pagemap", VDict [(lit "cse_image", VList [VStr (lit "x")])]) ] =
    Raise AttributeError /\
  extract_profile_info [(lit "title", VNone)] = Raise TypeError.
Proof. repeat split. Qed.

(** C5, amended.  For every raw result whose [title], [snippet] and [link]
    are each absent or a string (empty or not) and whose [pagemap] hints can
    be read ([pagemap_ok]), the extraction returns a record with exactly the
    five fields, each a string; an absent title gives the name ["N/A"], an absent
    snippet the description ["N/A"], an absent link the link [""], an absent
    pagemap the image [""], and an absent title with an absent snippet the
    title ["N/A"]. *)
Theorem profile_has_five_string_fields :
  forall search_result : dict,
    well_typed_result search_result = true ->
    exists name title link description image : str,
      extract_profile_info search_result =
      Ret (profile_of (VStr name) (VStr title) (VStr link)
                      (VStr description) (VStr image)) /\
      map fst (profile_of (VStr name) (VStr title) (VStr link)
                          (VStr description) (VStr image)) =
      [lit "name"; lit "title"; lit "link"; lit "description"; lit "image"] /\
      (dict_get (lit "title") search_result = None -> name = NA) /\
      (dict_get (lit "snippet") search_result = None -> description = NA) /\
      (dict_get (lit "link") search_result = None -> link = []) /\
      (dict_get (lit "pagemap") search_result = None -> image = []) /\
      (dict_get (lit "title") search_result = None ->
       dict_get (lit "snippet") search_result = None -> title = NA).
Proof.
  intros search_result Hwt. unfold well_typed_result in Hwt.
  repeat (apply andb_true_iff in Hwt; destruct Hwt as [Hwt ?]).
  destruct (str_or_absent_default _ _ Hwt) as (t & Ht & Ht0).
  destruct (str_or_absent_default _ _ H1) as (s & Hs & Hs0).
  destruct (str_or_absent_default _ _ H0) as (l & Hl & Hl0).
  destruct (image_is_str _ H) as (image & Hi).
  exists (_extract_name_from_title t), (_extract_title_from_content t s), l,
         (_clean_description s), image.
  split.
  { rewrite (extract_profile_info_str _ Ht Hs Hi), Hl. reflexivity. }
  split; [reflexivity |].
  split; [intro Ha; rewrite (Ht0 Ha); reflexivity |].
  split; [intro Ha; rewrite (Hs0 Ha); reflexivity |].
  split; [exact Hl0 |].
  split.
  - intro Ha. unfold _extract_image_url, dict_get_default in Hi.
    rewrite Ha in Hi. cbn in Hi. congruence.
  - intros Ha Hb. rewrite (Ht0 Ha), (Hs0 Hb). reflexivity.
Qed.

Lemma profile_has_five_string_fields_witness :
  exists name title link description image : str,
    extract_profile_info
      [ (lit "title", VStr (lit "Jane Doe - Senior Engineer | LinkedIn"));
        (lit "pagemap", VDict [(lit "cse_image", VList [])]) ] =
    Ret (profile_of (VStr name) (VStr title) (VStr link)
                    (VStr description) (VStr image)).
Proof.
  destruct (@profile_has_five_string_fields
              [ (lit "title", VStr (lit "Jane Doe - Senior Engineer | LinkedIn"));
                (lit "pagemap", VDict [(lit "cse_image", VList [])]) ]
              eq_refl)
    as (name & title & link & description & image & H & _).
  exists name, title, link, description, image. exact H.
Defined.

Example jane_doe :
  extract_profile_info
    [ (lit "title", VStr (lit "Jane Doe - Senior Engineer | LinkedIn")) ] =
  Ret (profile_of (VStr (lit "Jane Doe")) (VStr (lit "Senior Engineer"))
                  (VStr []) (VStr NA) (VStr [])).
Proof. reflexivity. Qed.

Example dr_john_smith :
  _extract_name_from_title (lit "Dr. John Smith | LinkedIn") = lit "John Smith".
Proof. reflexivity. Qed.

(** C8, as stated, fails: the link and the image do not depend on the title
    and the snippet.  A raw result with empty title and snippet and a link
    keeps its link. *)
Lemma empty_title_snippet_keeps_link :
  let search_result :=
    [ (lit "title", VStr []); (lit "snippet", VStr []);
      (lit "link", VStr (lit "http://x")) ] in
  extract_profile_info search_result =
    Ret (profile_of (VStr NA) (VStr NA) (VStr (lit "http://x")) (VStr NA) (VStr [])) /\
  extract_profile_info search_result <>
    Ret (profile_of (VStr NA) (VStr NA) (VStr []) (VStr NA) (VStr [])).
Proof. split; [reflexivity | discriminate]. Qed.

(** C8, amended.  For every raw result whose title and snippet are both the
    empty string, name, title and description are the sentinel; the link is
    the raw link ([""] when absent) and the image is what the image rule
    gives, so both are [""] when the raw result has no link and no
    pagemap. *)
Theorem empty_title_snippet_gives_sentinels :
  forall search_result : dict,
    dict_get (lit "title") search_result = Some (VStr []) ->
    dict_get (lit "snippet") search_result = Some (VStr []) ->
    (forall image,
        _extract_image_url search_result = Ret image ->
        extract_profile_info search_result =
        Ret (profile_of (VStr NA) (VStr NA)
                        (dict_get_default search_result (lit "link") (VStr []))
                        (VStr NA) image)) /\
    (dict_get (lit "link") search_result = None ->
     dict_get (lit "pagemap") search_result = None ->
     extract_profile_info search_result =
     Ret (profile_of (VStr NA) (VStr NA) (VStr []) (VStr NA) (VStr []))).
Proof.
  intros search_result Ht Hs.
  assert (Hall : forall image,
             _extract_image_url search_result = Ret image ->
             extract_profile_info search_result =
             Ret (profile_of (VStr NA) (VStr NA)
                             (dict_get_default search_result (lit "link") (VStr []))
                             (VStr NA) image)).
  { intros image Hi.
    apply (@extract_profile_info_str search_result [] [] image).
    - unfold dict_get_default. rewrite Ht. reflexivity.
    - unfold dict_get_default. rewrite Hs. reflexivity.
    - exact Hi. }
  split; [exact Hall |].
  intros Hl Hp. rewrite (Hall (VStr [])).
  - unfold dict_get_default. rewrite Hl. reflexivity.
  - unfold _extract_image_url, dict_get_default. rewrite Hp. reflexivity.
Qed.

Lemma empty_title_snippet_gives_sentinels_witness :
  extract_profile_info [(lit "title", VStr []); (lit "snippet", VStr [])] =
  Ret (profile_of (VStr NA) (VStr NA) (VStr []) (VStr NA) (VStr [])).
Proof.
  exact (proj2 (@empty_title_snippet_gives_sentinels
                  [(lit "title", VStr []); (lit "snippet", VStr [])]
                  eq_refl eq_refl)
               eq_refl eq_refl).
Defined.

(** ** Properties of the retriever *)

Lemma str_eqb_refl (k : str) : str_eqb k k = true.
Proof. unfold str_eqb. destruct (list_eq_dec N.eq_dec k k); congruence. Qed.

Lemma str_eqb_neq (k k' : str) : k <> k' -> str_eqb k k' = false.
Proof. unfold str_eqb. destruct (list_eq_dec N.eq_dec k k'); congruence. Qed.

Lemma str_eqb_eq (k k' : str) : str_eqb k k' = true -> k = k'.
Proof. unfold str_eqb. destruct (list_eq_dec N.eq_dec k k'); congruence. Qed.

Lemma dict_get_set_same (k : str) (v : value) (d : dict) :
  dict_get k (dict_set k v d) = Some v.
Proof.
  induction d as [| [k' v'] d IH]; cbn [dict_set dict_get].
  - rewrite str_eqb_refl. reflexivity.
  - destruct (str_eqb k' k) eqn:E; cbn [dict_get]; rewrite E; auto.
Qed.

Lemma dict_get_set_other (k k0 : str) (v : value) (d : dict) :
  k <> k0 -> dict_get k0 (dict_set k v d) = dict_get k0 d.
Proof.
  intro Hne. induction d as [| [k' v'] d IH]; cbn [dict_set dict_get].
  - rewrite (str_eqb_neq Hne). reflexivity.
  - destruct (str_eqb k' k) eqn:E; cbn [dict_get].
    + apply str_eqb_eq in E. subst k'. rewrite (str_eqb_neq Hne). reflexivity.
    + rewrite IH. reflexivity.
Qed.

(** Every item of a page carries the page number and one and the same
    result index: the number of results accumulated before the page, plus
    one. *)
Lemma tagged_fields (page : Z) (before : nat) (d : dict) :
  exists d', tagged page before d = VDict d' /\
             dict_get (lit "page_number") d' = Some (VInt page) /\
             dict_get (lit "result_index") d' = Some (VInt (Z.of_nat before + 1)).
Proof.
  eexists. split; [reflexivity |]. split.
  - rewrite dict_get_set_other by discriminate. apply dict_get_set_same.
  - apply dict_get_set_same.
Qed.

Lemma tag_items_dicts (page : Z) (all_results : list value) (ds : list dict) :
  tag_items page all_results (map VDict ds) =
  Ret (map (tagged page (List.length all_results)) ds).
Proof.
  induction ds as [| d ds IH]; [reflexivity |].
  cbn [map tag_items]. rewrite IH. reflexivity.
Qed.

Section SearchProperties.

Variable http_get : Z -> result value.
Variable progress_callback : option (Z -> Z -> Z -> result unit).
Variable max_pages : Z.
Variable delay_seconds : Z.

Local Abbreviation loop := (search_loop http_get progress_callback max_pages delay_seconds).
Local Abbreviation progress := (call_progress progress_callback).

(** A page that returns items is appended whole, in response order, each
    item tagged. *)
Lemma fetch_page_returns (page : Z) (all_results : list value) (ds : list dict) :
  page_returns http_get page ds ->
  fetch_page http_get page all_results =
  Some (all_results ++ map (tagged page (List.length all_results)) ds).
Proof.
  intros (body & Hget & Hitems & Hne).
  unfold fetch_page, try_block, _make_request. rewrite Hget.
  assert (Hbody : truthy (VDict body) = true).
  { destruct body; [discriminate Hitems | reflexivity]. }
  cbn [bind]. rewrite Hbody. cbn [negb py_get bind].
  unfold dict_get_default. rewrite Hitems.
  destruct ds as [| d ds]; [congruence |].
  cbn [map truthy negb py_iter bind].
  change (VDict d :: map VDict ds) with (map VDict (d :: ds)).
  rewrite tag_items_dicts. reflexivity.
Qed.

(** A request that raises breaks the loop, whatever is raised. *)
Lemma fetch_page_raises (page : Z) (all_results : list value) (e : exn) :
  http_get (start_index_of page) = Raise e ->
  fetch_page http_get page all_results = None.
Proof.
  intro Hget. unfold fetch_page, try_block, _make_request. rewrite Hget.
  destruct e; reflexivity.
Qed.

Lemma progress_cases (a b c : Z) (k : list event * result (list value)) :
  progress a b c k = k \/
  (fst (progress a b c k) = EvProgress a b c :: fst k /\
   snd (progress a b c k) = snd k) \/
  (exists e, progress a b c k = ([EvProgress a b c], Raise e)).
Proof.
  unfold call_progress. destruct progress_callback as [callback|]; [| auto].
  destruct (callback a b c); [right; left; split; reflexivity |].
  right; right. eauto.
Qed.

Lemma loop_S (n : nat) (page : Z) (all_results : list value) :
  loop (S n) page all_results =
  progress (page - 1) max_pages (Z.of_nat (List.length all_results))
    (let rest :=
       match fetch_page http_get page all_results with
       | None => ([], Ret all_results)
       | Some all_results' =>
           match delay_outcome max_pages delay_seconds page with
           | Raise e => ([], Raise e)
           | Ret _ =>
               let after :=
                 progress page max_pages (Z.of_nat (List.length all_results'))
                   (loop n (page + 1) all_results') in
               (delay_events max_pages delay_seconds page ++ fst after, snd after)
           end
       end in
     (EvRequest page (start_index_of page) :: fst rest, snd rest)).
Proof. reflexivity. Qed.

(** The sleep raises only when there is one and the delay is beyond what
    [time.sleep] takes. *)
Lemma delay_outcome_cases (page : Z) :
  delay_outcome max_pages delay_seconds page = Ret tt \/
  (delay_outcome max_pages delay_seconds page = Raise OverflowError /\
   (page < max_pages)%Z /\ (sleep_limit <= delay_seconds)%Z).
Proof.
  unfold delay_outcome, time_sleep.
  destruct (page <? max_pages)%Z eqn:Hp; [| left; reflexivity].
  destruct (0 <? delay_seconds)%Z eqn:Hd; [| left; reflexivity].
  cbn [andb]. apply Z.ltb_lt in Hp, Hd.
  replace (delay_seconds <? 0)%Z with false by (symmetry; apply Z.ltb_ge; lia).
  destruct (sleep_limit <=? delay_seconds)%Z eqn:Hl; [| left; reflexivity].
  apply Z.leb_le in Hl. right. auto.
Qed.


Lemma in_delay_events (page : Z) (ev : event) :
  In ev (delay_events max_pages delay_seconds page) ->
  ev = EvSleep page delay_seconds /\ (page < max_pages)%Z /\ (0 < delay_seconds)%Z.
Proof.
  unfold delay_events.
  destruct (page <? max_pages)%Z eqn:Hp; [| intros []].
  destruct (0 <? delay_seconds)%Z eqn:Hd; [| intros []].
  cbn [andb]. intros [<- | []].
  apply Z.ltb_lt in Hp. apply Z.ltb_lt in Hd. auto.
Qed.

(** *** A failing page *)

Lemma dicts_of_map (ds : list dict) : dicts_of (map VDict ds) = Some ds.
Proof.
  induction ds as [| d ds IH]; [reflexivity |].
  cbn [map dicts_of]. rewrite IH. reflexivity.
Qed.

Lemma tag_items_inv (page : Z) (all_results : list value) :
  forall (l tagged_l : list value),
    tag_items page all_results l = Ret tagged_l ->
    exists ds, l = map VDict ds.
Proof.
  induction l as [| item l IH]; intros tagged_l Htag.
  - exists []. reflexivity.
  - cbn [tag_items] in Htag.
    destruct item as [| b | z | s | l' | d]; try discriminate Htag.
    destruct (tag_items page all_results l) as [rest|e] eqn:Hrest;
      [| discriminate Htag].
    destruct (IH _ eq_refl) as [ds ->]. exists (d :: ds). reflexivity.
Qed.

Lemma page_items_returns (page : Z) (ds : list dict) :
  page_returns http_get page ds -> page_items http_get page = ds.
Proof.
  intros (body & Hget & Hitems & _). unfold page_items.
  rewrite Hget, Hitems, dicts_of_map. reflexivity.
Qed.

(** The loop goes past a page only when the page returned a non-empty list
    of objects, and then appends exactly these, tagged. *)
Lemma fetch_page_some_inv (page : Z) (all_results all_results' : list value) :
  fetch_page http_get page all_results = Some all_results' ->
  page_returns http_get page (page_items http_get page) /\
  all_results' =
    all_results ++
    map (tagged page (List.length all_results)) (page_items http_get page).
Proof.
  intro Hfetch.
  assert (Hret : exists ds, page_returns http_get page ds).
  { revert Hfetch. unfold fetch_page, try_block, _make_request.
    destruct (http_get (start_index_of page)) as [results|e] eqn:Hget;
      [| destruct e; discriminate].
    cbn [bind]. destruct (truthy results) eqn:Htruthy; [| discriminate].
    cbn [negb]. destruct results as [| b | z | s | l | body]; try discriminate.
    cbn [py_get bind]. unfold dict_get_default.
    destruct (dict_get (lit "items") body) as [items|] eqn:Hitems;
      [| discriminate].
    destruct (truthy items) eqn:Hitruthy; [| discriminate]. cbn [negb].
    destruct items as [| b | z | s | l | d]; try discriminate.
    - destruct s as [| c s]; discriminate.
    - cbn [py_iter bind].
      destruct (tag_items page all_results l) as [tagged_l|e] eqn:Htag;
        [| discriminate].
      intros _. destruct (tag_items_inv _ _ _ Htag) as [ds ->].
      exists ds. exists body. repeat split; try assumption.
      intros ->. discriminate Hitruthy.
    - destruct d as [| [k v] d]; discriminate. }
  destruct Hret as [ds Hds].
  rewrite (page_items_returns Hds).
  rewrite (fetch_page_returns all_results Hds) in Hfetch.
  split; [exact Hds | congruence].
Qed.

Lemma loop_failed_page (e : exn) (p : Z) :
  http_get (start_index_of p) = Raise e ->
  forall (n : nat) (page : Z) (all_results : list value),
    In (EvRequest p (start_index_of p)) (fst (loop n page all_results)) ->
    (page <= p < page + Z.of_nat n)%Z /\
    (forall q, (page <= q < p)%Z ->
               page_returns http_get q (page_items http_get q)) /\
    snd (loop n page all_results) =
      Ret (all_results ++
           tagged_pages (page_items http_get) (Z.to_nat (p - page)) page
                        (List.length all_results)) /\
    exists before,
      fst (loop n page all_results) = before ++ [EvRequest p (start_index_of p)] /\
      forall q s, In (EvRequest q s) before -> (page <= q < p)%Z.
Proof.
  intros Hraise. induction n as [| n IH]; intros page all_results Hin.
  { destruct Hin. }
  rewrite loop_S in *.
  set (inner := (let rest := _ in (_ :: fst rest, snd rest))) in *.
  (* the iteration without the first call of the callback *)
  assert (Hinner :
    In (EvRequest p (start_index_of p)) (fst inner) ->
    (page <= p < page + Z.of_nat (S n))%Z /\
    (forall q, (page <= q < p)%Z ->
               page_returns http_get q (page_items http_get q)) /\
    snd inner =
      Ret (all_results ++
           tagged_pages (page_items http_get) (Z.to_nat (p - page)) page
                        (List.length all_results)) /\
    exists before,
      fst inner = before ++ [EvRequest p (start_index_of p)] /\
      forall q s, In (EvRequest q s) before -> (page <= q < p)%Z).
  { subst inner. cbv zeta.
    destruct (fetch_page http_get page all_results) as [all_results'|] eqn:Hfetch.
    - destruct (delay_outcome max_pages delay_seconds page) as [[] | e0].
      2:{ cbn [fst snd]. intros [Heq | []]. injection Heq as Hp _. subst p.
          rewrite (fetch_page_raises _ _ Hraise) in Hfetch. discriminate. }
      cbn [fst snd]. intros [Heq | Hin'].
      { injection Heq as Hp _. subst p.
        rewrite (fetch_page_raises _ _ Hraise) in Hfetch. discriminate. }
      apply in_app_or in Hin'. destruct Hin' as [Hd | Hin'].
      { apply in_delay_events in Hd. destruct Hd as [Hd _]. discriminate. }
      set (k := loop n (page + 1) all_results') in *.
      assert (Hk : In (EvRequest p (start_index_of p)) (fst k) /\
                   exists pre,
                     fst (progress page max_pages
                            (Z.of_nat (List.length all_results')) k) = pre ++ fst k /\
                     snd (progress page max_pages
                            (Z.of_nat (List.length all_results')) k) = snd k /\
                     forall q s, ~ In (EvRequest q s) pre).
      { destruct (progress_cases page max_pages
                    (Z.of_nat (List.length all_results')) k)
          as [H0 | [[H1 H2] | [e' H3]]].
        - rewrite H0 in *. split; [exact Hin' |]. exists []. repeat split.
          intros q s [].
        - rewrite H1 in Hin'. destruct Hin' as [Hd | Hin']; [discriminate |].
          split; [exact Hin' |]. exists [EvProgress page max_pages
                                          (Z.of_nat (List.length all_results'))].
          repeat split; [exact H1 | exact H2 |].
          intros q s [Hd | []]. discriminate.
        - rewrite H3 in Hin'. destruct Hin' as [Hd | []]. discriminate. }
      destruct Hk as (Hink & pre & Hfst & Hsnd & Hpre).
      destruct (IH _ _ Hink) as (Hle & Hpages & Hres & before & Htrace & Hbefore).
      destruct (fetch_page_some_inv _ _ Hfetch) as (Hpage & Hnext).
      split; [lia |]. split; [| split].
      + intros q Hq. destruct (Z.eq_dec q page) as [-> | Hne]; [exact Hpage |].
        apply Hpages. lia.
      + rewrite Hsnd. fold k in Hres. rewrite Hres.
        replace (Z.to_nat (p - page)) with (S (Z.to_nat (p - (page + 1)))) by lia.
        cbn [tagged_pages]. rewrite Hnext.
        rewrite length_app, length_map, <- app_assoc. reflexivity.
      + exists (EvRequest page (start_index_of page)
                :: delay_events max_pages delay_seconds page ++ pre ++ before).
        split.
        * rewrite Hfst. fold k in Htrace. rewrite Htrace.
          cbn [app]. rewrite <- !app_assoc. reflexivity.
        * intros q s [Heq | Hq].
          { injection Heq as Hq _. lia. }
          apply in_app_or in Hq. destruct Hq as [Hq | Hq].
          { apply in_delay_events in Hq. destruct Hq as [Hq _]. discriminate. }
          apply in_app_or in Hq. destruct Hq as [Hq | Hq].
          { exfalso. exact (Hpre _ _ Hq). }
          specialize (Hbefore _ _ Hq). lia.
    - cbn [fst snd]. intros [Heq | []].
      injection Heq as Hp _. subst p.
      split; [lia |]. split; [intros q Hq; lia |]. split.
      + rewrite Z.sub_diag. cbn [Z.to_nat tagged_pages].
        rewrite app_nil_r. reflexivity.
      + exists []. split; [reflexivity | intros q s []]. }
  destruct (progress_cases (page - 1) max_pages
              (Z.of_nat (List.length all_results)) inner)
    as [H0 | [[H1 H2] | [e' H3]]].
  - rewrite H0 in *. exact (Hinner Hin).
  - rewrite H1 in Hin. destruct Hin as [Hd | Hin]; [discriminate |].
    destruct (Hinner Hin) as (Hle & Hpages & Hres & before & Htrace & Hbefore).
    split; [exact Hle |]. split; [exact Hpages |].
    split; [rewrite H2; exact Hres |].
    exists (EvProgress (page - 1) max_pages (Z.of_nat (List.length all_results))
            :: before).
    split; [rewrite H1, Htrace; reflexivity |].
    intros q s [Hd | Hq]; [discriminate | exact (Hbefore _ _ Hq)].
  - rewrite H3 in Hin. destruct Hin as [Hd | []]. discriminate.
Qed.

(** C6.  In a run that requests page [p] and gets an exception there (a
    request error, a decode error or any other), the loop stops at that
    request: nothing is raised to the caller, the trace ends with the
    request of page [p], every earlier request is for a page before [p],
    each page before [p] returned items, and the result is these items,
    page after page. *)
Theorem failed_page_stops_search :
  forall (p : Z) (e : exn),
    In (EvRequest p (start_index_of p))
       (fst (search http_get progress_callback max_pages delay_seconds)) ->
    http_get (start_index_of p) = Raise e ->
    snd (search http_get progress_callback max_pages delay_seconds) =
      Ret (tagged_pages (page_items http_get) (Z.to_nat (p - 1)) 1 0) /\
    (forall q, (1 <= q < p)%Z ->
               page_returns http_get q (page_items http_get q)) /\
    (exists before,
        fst (search http_get progress_callback max_pages delay_seconds) =
          before ++ [EvRequest p (start_index_of p)] /\
        forall q s, In (EvRequest q s) before -> (1 <= q < p)%Z) /\
    (1 <= p <= max_pages)%Z.
Proof.
  intros p e Hin Hraise. unfold search in *.
  destruct (loop_failed_page _ Hraise _ _ _ Hin) as (Hle & Hpages & Hres & Hbefore).
  split; [exact Hres |]. split; [exact Hpages |]. split; [exact Hbefore |].
  lia.
Qed.

(** *** Runs whose pages all succeed *)






(** *** The delay between pages *)

Lemma loop_sleeps (n : nat) :
  forall (page : Z) (all_results : list value) (p s : Z),
    In (EvSleep p s) (fst (loop n page all_results)) ->
    (page <= p < max_pages)%Z /\ (0 < delay_seconds)%Z /\ s = delay_seconds.
Proof.
  induction n as [| n IH]; intros page all_results p s Hin; [destruct Hin |].
  rewrite loop_S in Hin.
  set (inner := (let rest := _ in (_ :: fst rest, snd rest))) in *.
  assert (Hinner : In (EvSleep p s) (fst inner)).
  { destruct (progress_cases (page - 1) max_pages
                (Z.of_nat (List.length all_results)) inner)
      as [H0 | [[H1 _] | [e' H3]]].
    - rewrite H0 in Hin. exact Hin.
    - rewrite H1 in Hin. destruct Hin as [Hd | Hin]; [discriminate | exact Hin].
    - rewrite H3 in Hin. destruct Hin as [Hd | []]. discriminate. }
  clear Hin. subst inner. cbv zeta in Hinner.
  destruct (fetch_page http_get page all_results) as [all_results'|].
  2:{ destruct Hinner as [Hd | []]. discriminate. }
  destruct (delay_outcome max_pages delay_seconds page) as [[] | e0].
  2:{ destruct Hinner as [Hd | []]. discriminate. }
  cbn [fst snd] in Hinner. destruct Hinner as [Hd | Hin]; [discriminate |].
  apply in_app_or in Hin. destruct Hin as [Hd | Hin].
  { apply in_delay_events in Hd. destruct Hd as (Heq & Hp & Hd).
    injection Heq as -> ->. lia. }
  set (k := loop n (page + 1) all_results') in *.
  assert (Hk : In (EvSleep p s) (fst k)).
  { destruct (progress_cases page max_pages
                (Z.of_nat (List.length all_results')) k)
      as [H0 | [[H1 _] | [e' H3]]].
    - rewrite H0 in Hin. exact Hin.
    - rewrite H1 in Hin. destruct Hin as [Hd | Hin]; [discriminate | exact Hin].
    - rewrite H3 in Hin. destruct Hin as [Hd | []]. discriminate. }
  destruct (IH _ _ _ _ Hk) as (Hp & Hd & Hs). repeat split; (lia || assumption).
Qed.

Lemma after_request_progress (q a b c : Z) (k : list event * result (list value))
    (ev : event) :
  In ev (after_request q (fst (progress a b c k))) ->
  In ev (after_request q (fst k)).
Proof.
  destruct (progress_cases a b c k) as [H0 | [[H1 _] | [e' H3]]].
  - rewrite H0. auto.
  - rewrite H1. auto.
  - rewrite H3. intros [].
Qed.

Lemma after_request_delay (q page : Z) (trace : list event) :
  after_request q (delay_events max_pages delay_seconds page ++ trace) =
  after_request q trace.
Proof.
  unfold delay_events.
  destruct ((page <? max_pages)%Z && (0 <? delay_seconds)%Z); reflexivity.
Qed.

Lemma loop_after_last_request (n : nat) :
  forall (page : Z) (all_results : list value) (ev : event),
    (page + Z.of_nat n = max_pages + 1)%Z ->
    In ev (after_request max_pages (fst (loop n page all_results))) ->
    is_sleep ev = false.
Proof.
  induction n as [| n IH]; intros page all_results ev Hlast Hin; [destruct Hin |].
  rewrite loop_S in Hin. apply after_request_progress in Hin.
  cbv zeta in Hin. cbn [fst after_request] in Hin.
  destruct (page =? max_pages)%Z eqn:Hpage.
  - apply Z.eqb_eq in Hpage. assert (n = 0%nat) by lia. subst n.
    destruct (fetch_page http_get page all_results) as [all_results'|];
      [| destruct Hin].
    destruct (delay_outcome max_pages delay_seconds page) as [[] | e0];
      [| destruct Hin].
    cbn [fst] in Hin. apply in_app_or in Hin. destruct Hin as [Hd | Hin].
    { apply in_delay_events in Hd. lia. }
    destruct (progress_cases page max_pages
                (Z.of_nat (List.length all_results'))
                (loop 0 (page + 1) all_results'))
      as [H0 | [[H1 _] | [e' H3]]].
    + rewrite H0 in Hin. destruct Hin.
    + rewrite H1 in Hin. destruct Hin as [<- | []]. reflexivity.
    + rewrite H3 in Hin. destruct Hin as [<- | []]. reflexivity.
  - destruct (fetch_page http_get page all_results) as [all_results'|];
      [| destruct Hin].
    destruct (delay_outcome max_pages delay_seconds page) as [[] | e0];
      [| destruct Hin].
    cbn [fst] in Hin. rewrite after_request_delay in Hin.
    apply after_request_progress in Hin.
    apply (IH (page + 1)%Z all_results' ev); [lia | exact Hin].
Qed.

(** C9.  A sleep happens only in an iteration [p] with [p < max_pages] and
    [delay_seconds > 0], and lasts [delay_seconds]; so a run with
    [delay_seconds = 0] never sleeps, whatever [max_pages] is, and nothing
    that follows the request of page [max_pages] is a sleep. *)
Theorem sleep_only_between_pages :
  (forall p s,
      In (EvSleep p s) (fst (search http_get progress_callback max_pages delay_seconds)) ->
      (1 <= p < max_pages)%Z /\ (0 < delay_seconds)%Z /\ s = delay_seconds) /\
  (delay_seconds = 0%Z ->
   forall ev,
     In ev (fst (search http_get progress_callback max_pages delay_seconds)) ->
     is_sleep ev = false) /\
  (forall ev,
      In ev (after_request max_pages
               (fst (search http_get progress_callback max_pages delay_seconds))) ->
      is_sleep ev = false).
Proof.
  split; [| split].
  - intros p s Hin. exact (loop_sleeps _ _ _ _ _ Hin).
  - intros Hzero ev Hin. destruct ev as [a b c | a b | p s]; try reflexivity.
    apply loop_sleeps in Hin. lia.
  - intros ev Hin. unfold search in Hin.
    destruct (Z.le_gt_cases 0 max_pages) as [Hpos | Hneg].
    + apply (@loop_after_last_request (Z.to_nat max_pages) 1 [] ev); [lia | exact Hin].
    + replace (Z.to_nat max_pages) with 0%nat in Hin by lia. destruct Hin.
Qed.

End SearchProperties.

(** *** Example runs *)

(** C2.  The claim asks for a running index, the k-th item of the whole
    output carrying [result_index = k]; line 203 computes the index from
    [len(all_results)], which only grows after the page has been tagged, so
    all items of a page share the index of its first item.  On a first page
    of two items both are tagged [result_index = 1]; the page number and
    the response order are as claimed. *)
Theorem result_index_repeats_within_page :
  snd (search two_item_upstream None 1 0) =
    Ret [ tagged 1 0 [(lit "title", VStr (lit "a"))];
          tagged 1 0 [(lit "title", VStr (lit "b"))] ] /\
  exists first second : dict,
    snd (search two_item_upstream None 1 0) = Ret [VDict first; VDict second] /\
    dict_get (lit "title") second = Some (VStr (lit "b")) /\
    dict_get (lit "page_number") second = Some (VInt 1) /\
    dict_get (lit "result_index") first = Some (VInt 1) /\
    dict_get (lit "result_index") second = Some (VInt 1) /\
    dict_get (lit "result_index") second <> Some (VInt 2).
Proof.
  split; [reflexivity |].
  eexists. eexists. split; [reflexivity |].
  repeat split. discriminate.
Qed.

Lemma failed_page_stops_search_witness :
  snd (search one_item_upstream (Some quiet_callback) 3 0) =
  Ret [ tagged 1 0 [(lit "title", VStr (lit "a"))] ].
Proof.
  refine (proj1 (@failed_page_stops_search
                   one_item_upstream (Some quiet_callback) 3 0
                   2 RequestException _ _)).
  - vm_compute. auto 10.
  - reflexivity.
Defined.



Lemma sleep_only_between_pages_witness :
  (1 <= 1 < 2)%Z /\ (0 < 5)%Z /\ 5%Z = 5%Z.
Proof.
  refine (proj1 (@sleep_only_between_pages
                   endless_upstream (Some quiet_callback) 2 5) 1%Z 5%Z _).
  vm_compute. auto 10.
Defined.

Example no_sleep_without_delay :
  filter is_sleep (fst (search endless_upstream (Some quiet_callback) 3 0)) = [].
Proof. reflexivity. Qed.

Example sleeps_between_three_pages :
  filter is_sleep (fst (search endless_upstream (Some quiet_callback) 3 5)) =
  [EvSleep 1 5; EvSleep 2 5].
Proof. reflexivity. Qed.

(** The run of the specification: three pages asked, the second one empty. *)
Example empty_second_page :
  search (fun start => if (start =? 1)%Z then endless_upstream start
                       else Ret (VDict [(lit "items", VList [])]))
         (Some quiet_callback) 3 0 =
  ([EvProgress 0 3 0; EvRequest 1 1; EvProgress 1 3 1;
    EvProgress 1 3 1; EvRequest 2 11],
   Ret [ tagged 1 0 [(lit "title", VStr (lit "a"))] ]).
Proof. reflexivity. Qed.

(** A delay beyond what [time.sleep] takes: the sleep after the first page
    raises, and the run ends there with the page appended and no second
    call of the callback. *)
Example sleep_overflow :
  search endless_upstream (Some quiet_callback) 3 9223372037 =
  ([EvProgress 0 3 0; EvRequest 1 1], Raise OverflowError) /\
  search endless_upstream (Some quiet_callback) 3 9223372036 =
  ([EvProgress 0 3 0; EvRequest 1 1; EvSleep 1 9223372036; EvProgress 1 3 1;
    EvProgress 1 3 1; EvRequest 2 11; EvSleep 2 9223372036; EvProgress 2 3 2;
    EvProgress 2 3 2; EvRequest 3 21; EvProgress 3 3 3],
   Ret [ tagged 1 0 [(lit "title", VStr (lit "a"))];
         tagged 2 1 [(lit "title", VStr (lit "a"))];
         tagged 3 2 [(lit "title", VStr (lit "a"))] ]).
Proof. split; reflexivity. Qed.

(** ** Further properties of the extractor *)

Lemma startswith_app_r (p a b : str) :
  startswith p a = true -> startswith p (a ++ b) = true.
Proof.
  revert a. induction p as [| x p IH]; intros a H; [reflexivity |].
  destruct a as [| y a]; [discriminate |].
  cbn [startswith app] in *. apply andb_true_iff in H. destruct H as [Hxy Hp].
  rewrite Hxy, (IH _ Hp). reflexivity.
Qed.

Lemma contains_app_r (sub b c : str) :
  contains sub b = true -> contains sub (b ++ c) = true.
Proof.
  induction b as [| x b IH]; intro H.
  - cbn [contains] in H. rewrite orb_false_r in H.
    destruct sub; [| discriminate]. destruct c; reflexivity.
  - cbn [contains app] in *. apply orb_true_iff in H. destruct H as [H | H].
    + change (x :: b ++ c) with ((x :: b) ++ c).
      rewrite (startswith_app_r _ _ c H). reflexivity.
    + rewrite (IH H). apply orb_true_r.
Qed.

Lemma contains_app_l (sub a b : str) :
  contains sub b = true -> contains sub (a ++ b) = true.
Proof.
  intro H. induction a as [| x a IH]; [exact H |].
  cbn [contains app]. rewrite IH. apply orb_true_r.
Qed.

(** A piece of a text that lacks [sub] lacks it too. *)
Lemma contains_piece (sub a b c : str) :
  contains sub (a ++ b ++ c) = false -> contains sub b = false.
Proof.
  intro H. destruct (contains sub b) eqn:Hb; [| reflexivity].
  rewrite (contains_app_l _ a _ (contains_app_r _ _ c Hb)) in H. discriminate.
Qed.

(** The first segment of a split is the text before the first separator:
    it starts the text and does not contain the separator. *)
Lemma split_first_prefix (sep s : str) :
  exists rest, s = fst (split_from sep 0 s) ++ rest.
Proof.
  induction s as [| c s (rest & IH)]; [exists []; reflexivity |].
  cbn [split_from]. destruct (startswith sep (c :: s)).
  - destruct (split_from sep (List.length sep - 1) s). exists (c :: s). reflexivity.
  - destruct (split_from sep 0 s) as [h t]. cbn [fst] in *.
    exists rest. cbn [app]. congruence.
Qed.

Lemma split_first_no_sep (sep s : str) :
  sep <> [] -> contains sep (fst (split_from sep 0 s)) = false.
Proof.
  intro Hsep. induction s as [| c s IH].
  - destruct sep; [congruence | reflexivity].
  - cbn [split_from]. destruct (startswith sep (c :: s)) eqn:Hstart.
    + destruct (split_from sep (List.length sep - 1) s).
      destruct sep; [congruence | reflexivity].
    + destruct (split_first_prefix sep s) as [rest Hrest].
      destruct (split_from sep 0 s) as [h t]. cbn [fst] in *.
      cbn [contains]. rewrite IH, orb_false_r.
      destruct (startswith sep (c :: h)) eqn:Hh; [| reflexivity].
      rewrite Hrest in Hstart. change (c :: h ++ rest) with ((c :: h) ++ rest) in Hstart.
      rewrite (startswith_app_r _ _ rest Hh) in Hstart. discriminate.
Qed.

Lemma strip_piece (s : str) : exists pre post, s = pre ++ strip s ++ post.
Proof.
  destruct (lstrip_suffix s) as (pre & Hs & _).
  destruct (lstrip_suffix (rev (lstrip s))) as (post & Hr & _).
  exists pre, (rev post). unfold strip, rstrip.
  rewrite <- rev_app_distr, <- Hr, rev_involutive. exact Hs.
Qed.

Lemma match_honorific_suffix (p s rest : str) :
  match_honorific p s = Some rest -> exists pre, s = pre ++ rest.
Proof.
  unfold match_honorific. destruct (startswith p s); [| discriminate].
  set (r := skipn (List.length p) s).
  assert (Hr : s = firstn (List.length p) s ++ r)
    by (symmetry; apply firstn_skipn).
  clearbody r.
  assert (Hr' : exists pre, s = pre ++
                 match r with
                 | c :: t => if (c =? 46)%N then t else r
                 | [] => r
                 end).
  { destruct r as [| c t]; [eauto |].
    destruct (c =? 46)%N; [| eauto].
    exists (firstn (List.length p) s ++ [c]). rewrite <- app_assoc. exact Hr. }
  destruct Hr' as [pre Hpre].
  destruct (match r with c :: t => if (c =? 46)%N then t else r | [] => r end)
    as [| c r'] eqn:Hm; [discriminate |].
  destruct (isspace c); [| discriminate]. intro H. injection H as <-.
  destruct (lstrip_suffix (c :: r')) as (ws & Hws & _).
  exists (pre ++ ws). rewrite <- app_assoc.
  change (s = pre ++ ws ++ lstrip (c :: r')). rewrite <- Hws. exact Hpre.
Qed.

Lemma match_honorific_head (p s rest : str) (c : char) (r : str) :
  match_honorific p s = Some rest -> rest = c :: r -> isspace c = false.
Proof.
  unfold match_honorific. destruct (startswith p s); [| discriminate].
  destruct (match skipn (List.length p) s with
            | c0 :: t => if (c0 =? 46)%N then t else skipn (List.length p) s
            | [] => skipn (List.length p) s
            end) as [| c0 r'] eqn:Hm; [discriminate |].
  destruct (isspace c0); [| discriminate]. intro H. injection H as <-.
  intro H. exact (@lstrip_head (c0 :: r') c r H).
Qed.

(** The name without its honorific is a final part of the name, and does
    not start with whitespace when the honorific was removed. *)
Lemma sub_honorific_cases (name : str) :
  sub_honorific name = name \/
  (exists pre, name = pre ++ sub_honorific name) /\
  (forall c r, sub_honorific name = c :: r -> isspace c = false).
Proof.
  unfold sub_honorific.
  generalize [lit "Dr"; lit "Mr"; lit "Ms"; lit "Mrs"].
  induction l as [| p alts IH]; [left; reflexivity |].
  cbn [first_honorific].
  destruct (match_honorific p name) as [rest|] eqn:Hm; [| exact IH].
  right. split.
  - exact (match_honorific_suffix _ _ Hm).
  - intros c r Hr. exact (match_honorific_head _ _ Hm Hr).
Qed.

Lemma trimmed_intro (s : str) :
  (forall c r, s = c :: r -> isspace c = false) ->
  (forall c r, s = r ++ [c] -> isspace c = false) ->
  trimmed s = true.
Proof.
  intros Hhead Hlast. unfold trimmed. apply andb_true_iff. split.
  - destruct s as [| c r]; [reflexivity |].
    rewrite (Hhead c r eq_refl). reflexivity.
  - destruct (rev s) as [| c r] eqn:Hrev; [reflexivity |].
    rewrite (Hlast c (rev r)); [reflexivity |].
    rewrite <- (rev_involutive s), Hrev. reflexivity.
Qed.

Lemma trimmed_last (s r : str) (c : char) :
  trimmed s = true -> s = r ++ [c] -> isspace c = false.
Proof.
  unfold trimmed. intros H ->. apply andb_true_iff in H. destruct H as [_ H].
  rewrite rev_unit in H. apply negb_true_iff in H. exact H.
Qed.

Lemma strip_trimmed (s : str) : trimmed (strip s) = true.
Proof.
  apply trimmed_intro; intros c r H.
  - eapply strip_head; exact H.
  - eapply strip_last; exact H.
Qed.

Lemma has_keyword_nonempty (line : str) : has_keyword line = true -> line <> [].
Proof. intros H ->. vm_compute in H. discriminate. Qed.

Lemma first_keyword_line_some (snippet_lines : list str) (line : str) :
  first_keyword_line snippet_lines = Some line ->
  has_keyword line = true /\ exists raw, In raw snippet_lines /\ line = strip raw.
Proof.
  induction snippet_lines as [| l rest IH]; [discriminate |].
  cbn [first_keyword_line]. destruct (has_keyword (strip l)) eqn:Hk.
  - intro H. injection H as <-. split; [exact Hk |]. exists l. split; [left |]; reflexivity.
  - intro H. destruct (IH H) as (Hkw & raw & Hin & Hraw).
    split; [exact Hkw |]. exists raw. split; [right; exact Hin | exact Hraw].
Qed.

Lemma nonempty_true_inv (s : str) : nonempty s = true -> s <> [].
Proof. destruct s; [discriminate | discriminate]. Qed.

(** The title, however it is found, is a trimmed text or the sentinel. *)
Lemma title_cases (title snippet : str) :
  _extract_title_from_content title snippet = NA \/
  (_extract_title_from_content title snippet <> [] /\
   exists raw, _extract_title_from_content title snippet = strip raw).
Proof.
  unfold _extract_title_from_content, title_from_title.
  destruct (contains dash title);
    [destruct (1 <? List.length (split dash title))%nat;
       [destruct (nonempty (strip (replace linkedin_suffix []
                                      (nth 1 (split dash title) [])))) eqn:Hne |] |].
  1:{ right. split; [apply nonempty_true_inv; exact Hne | eauto]. }
  all: unfold title_from_snippet;
    destruct (first_keyword_line (split middle_dot snippet)) as [line|] eqn:Hline;
    [ destruct (first_keyword_line_some _ Hline) as (Hkw & raw & _ & Hraw);
      right; split; [exact (has_keyword_nonempty Hkw) | eauto]
    | destruct (nonempty snippet);
      [ destruct (nonempty (strip (hd [] (split (lit ".") snippet)))) eqn:Hfirst;
        [ right; split; [apply nonempty_true_inv; exact Hfirst | eauto]
        | left; reflexivity ]
      | left; reflexivity ] ].
Qed.

(** The extracted title is never the empty string, and it neither starts
    nor ends with whitespace: every branch of [_extract_title_from_content]
    returns a non-empty stripped text or the sentinel. *)
Theorem title_never_empty_and_trimmed :
  forall title snippet : str,
    _extract_title_from_content title snippet <> [] /\
    trimmed (_extract_title_from_content title snippet) = true.
Proof.
  intros title snippet.
  destruct (title_cases title snippet) as [-> | (Hne & raw & Hraw)].
  - split; [discriminate | reflexivity].
  - split; [exact Hne | rewrite Hraw; apply strip_trimmed].
Qed.

(** The extracted name neither starts nor ends with whitespace and never
    contains the delimiter [" - "]: it is a piece of the text before the
    first delimiter. *)
Theorem name_trimmed_without_delimiter :
  forall title : str,
    trimmed (_extract_name_from_title title) = true /\
    contains dash (_extract_name_from_title title) = false.
Proof.
  intro title. destruct title as [| c title]; [split; reflexivity |].
  rewrite name_of_nonempty_title by discriminate.
  set (cleaned := replace linkedin_suffix [] (c :: title)).
  assert (Hseg : contains dash (hd [] (split dash cleaned)) = false).
  { unfold split. generalize (@split_first_no_sep dash cleaned ltac:(discriminate)).
    destruct (split_from dash 0 cleaned). auto. }
  set (segment := hd [] (split dash cleaned)) in *.
  assert (Hstrip : contains dash (strip segment) = false).
  { destruct (strip_piece segment) as (pre & post & Hp).
    rewrite Hp in Hseg. exact (contains_piece _ _ _ _ Hseg). }
  destruct (sub_honorific_cases (strip segment)) as [-> | [(pre & Hpre) Hhead]].
  - split; [apply strip_trimmed | exact Hstrip].
  - split.
    + apply trimmed_intro; [exact Hhead |].
      intros x r Hr. apply (@trimmed_last (strip segment) (pre ++ r) x).
      * apply strip_trimmed.
      * rewrite Hpre at 1. rewrite Hr, app_assoc. reflexivity.
    + rewrite Hpre in Hstrip.
      apply (contains_piece dash pre (sub_honorific (strip segment)) []).
      rewrite app_nil_r. exact Hstrip.
Qed.

(** *** The shape of the description *)

Lemma single_spaced_word (w t : str) :
  no_space w = true -> single_spaced (w ++ t) = single_spaced t.
Proof.
  induction w as [| c w IH]; intro Hw; [reflexivity |].
  cbn [no_space forallb] in Hw. apply andb_true_iff in Hw. destruct Hw as [Hc Hw].
  apply negb_true_iff in Hc. cbn [app single_spaced]. rewrite Hc.
  cbn [andb]. exact (IH Hw).
Qed.

Lemma single_spaced_last (r : str) (c : char) :
  single_spaced (r ++ [c]) = true -> isspace c = false.
Proof.
  induction r as [| x r IH]; cbn [app single_spaced].
  - destruct (isspace c); [| reflexivity].
    rewrite andb_false_r. discriminate.
  - intro H. apply andb_true_iff in H. destruct H as [_ H]. exact (IH H).
Qed.

Lemma single_spaced_trimmed (s : str) :
  (forall c r, s = c :: r -> isspace c = false) ->
  single_spaced s = true ->
  trimmed s = true.
Proof.
  intros Hhead Hs. apply trimmed_intro; [exact Hhead |].
  intros c r ->. exact (single_spaced_last _ _ Hs).
Qed.

(** The words of [str.split()] are non-empty and free of whitespace. *)
Lemma words_from_words (s : str) :
  no_space (fst (words_from s)) = true /\
  Forall (fun w => w <> [] /\ no_space w = true) (snd (words_from s)).
Proof.
  induction s as [| c s (Hw & Hws)]; [split; [reflexivity | constructor] |].
  cbn [words_from]. destruct (words_from s) as [w ws]. cbn [fst snd] in *.
  destruct (isspace c) eqn:Hc; cbn [fst snd].
  - split; [reflexivity |].
    destruct w as [| d w]; [exact Hws |].
    constructor; [split; [discriminate | exact Hw] | exact Hws].
  - split; [| exact Hws]. cbn [no_space forallb]. rewrite Hc. exact Hw.
Qed.

Lemma split_whitespace_words (s : str) :
  Forall (fun w => w <> [] /\ no_space w = true) (split_whitespace s).
Proof.
  unfold split_whitespace. destruct (words_from_words s) as [Hw Hws].
  destruct (words_from s) as [w ws]. cbn [fst snd] in *.
  destruct w as [| c w]; [exact Hws |].
  constructor; [split; [discriminate | exact Hw] | exact Hws].
Qed.

Lemma join_words (words : list str) :
  Forall (fun w => w <> [] /\ no_space w = true) words ->
  single_spaced (join (lit " ") words) = true /\
  (forall c r, join (lit " ") words = c :: r -> isspace c = false).
Proof.
  induction 1 as [| w rest [Hne Hw] Hrest [IHs IHh]]; [split; [reflexivity | discriminate] |].
  destruct w as [| d w]; [congruence |].
  assert (Hd : isspace d = false).
  { cbn [no_space forallb] in Hw. apply andb_true_iff in Hw.
    destruct Hw as [Hd _]. apply negb_true_iff in Hd. exact Hd. }
  split.
  - destruct rest as [| w2 rest].
    + cbn [join]. rewrite <- (app_nil_r (d :: w)).
      rewrite (single_spaced_word _ [] Hw). reflexivity.
    + change (join (lit " ") ((d :: w) :: w2 :: rest))
        with ((d :: w) ++ 32%N :: join (lit " ") (w2 :: rest)).
      rewrite (single_spaced_word _ _ Hw). cbn [single_spaced].
      change (isspace 32%N) with true. cbn [N.eqb Pos.eqb andb].
      destruct (join (lit " ") (w2 :: rest)) as [| c r] eqn:Hj.
      * inversion Hrest as [| ? ? [Hne2 _] _]; subst.
        destruct w2; [congruence | destruct rest; discriminate Hj].
      * rewrite (IHh c r eq_refl). exact IHs.
  - intros c r Hj. destruct rest; cbn [join app] in Hj; injection Hj as <- _; exact Hd.
Qed.

Lemma cleaned_snippet_shape (snippet : str) :
  single_spaced (cleaned_snippet snippet) = true /\
  (forall c r, cleaned_snippet snippet = c :: r -> isspace c = false).
Proof. unfold cleaned_snippet. apply join_words, split_whitespace_words. Qed.

(** Cutting a single-spaced text and appending a marker that does not
    start with whitespace keeps it single-spaced. *)
Lemma single_spaced_cut (marker : str) (d : char) (t : str) :
  marker = d :: t -> isspace d = false -> single_spaced marker = true ->
  forall (s : str) (n : nat),
    single_spaced s = true -> single_spaced (firstn n s ++ marker) = true.
Proof.
  intros Hm Hd Hmarker. induction s as [| c s IH]; intros n Hs.
  - rewrite firstn_nil. exact Hmarker.
  - destruct n as [| n]; [exact Hmarker |].
    cbn [firstn app single_spaced] in *.
    apply andb_true_iff in Hs. destruct Hs as [Hc Hs].
    rewrite (IH n Hs), andb_true_r.
    destruct (isspace c); [| reflexivity].
    apply andb_true_iff in Hc. destruct Hc as [Hc32 Hnext]. rewrite Hc32.
    destruct s as [| d' s]; [discriminate Hnext |].
    destruct n as [| n]; cbn [firstn app]; [rewrite Hm, Hd; reflexivity | exact Hnext].
Qed.

(** The description is at most 303 characters long, neither starts nor
    ends with whitespace, and every whitespace character in it is a single
    plain space followed by a character that is not whitespace. *)
Theorem description_bounded_and_single_spaced :
  forall snippet : str,
    (List.length (_clean_description snippet) <= 303)%nat /\
    trimmed (_clean_description snippet) = true /\
    single_spaced (_clean_description snippet) = true.
Proof.
  intro snippet. rewrite clean_description_unfold.
  destruct (cleaned_snippet_shape snippet) as [Hs Hh].
  destruct (nonempty snippet); cbn [negb];
    [| split; [cbn; lia | split; reflexivity]].
  destruct (300 <? len (cleaned_snippet snippet))%Z eqn:Hlong.
  - apply Z.ltb_lt in Hlong. unfold len in Hlong. unfold slice_to.
    assert (Hcut : single_spaced (firstn 300 (cleaned_snippet snippet) ++ lit "...") = true).
    { apply (@single_spaced_cut (lit "...") 46%N (lit ".."));
        [reflexivity | reflexivity | reflexivity | exact Hs]. }
    split; [| split; [| exact Hcut]].
    + rewrite length_app, firstn_length_le by lia. cbn. lia.
    + apply single_spaced_trimmed; [| exact Hcut].
      intros c r Hcr. destruct (cleaned_snippet snippet) as [| x rest] eqn:Hcl.
      * cbn [List.length] in Hlong. lia.
      * rewrite firstn_cons in Hcr. injection Hcr as <- _.
        exact (Hh x rest eq_refl).
  - apply Z.ltb_ge in Hlong. unfold len in Hlong.
    split; [lia | split; [| exact Hs]].
    apply single_spaced_trimmed; assumption.
Qed.

(** The entity sequences start with [&], so a text of whitespace has
    none. *)
Lemma replace_in_whitespace (tail new s : str) :
  forallb isspace s = true -> replace (38%N :: tail) new s = s.
Proof.
  unfold replace. induction s as [| c s IH]; intro Hs; [reflexivity |].
  cbn [forallb] in Hs. apply andb_true_iff in Hs. destruct Hs as [Hc Hs].
  cbn [replace_from startswith].
  destruct (38 =? c)%N eqn:Heq.
  - apply N.eqb_eq in Heq. subst c. discriminate Hc.
  - cbn [andb]. rewrite (IH Hs). reflexivity.
Qed.

Lemma words_from_whitespace (s : str) :
  forallb isspace s = true -> words_from s = ([], []).
Proof.
  induction s as [| c s IH]; intro Hs; [reflexivity |].
  cbn [forallb] in Hs. apply andb_true_iff in Hs. destruct Hs as [Hc Hs].
  cbn [words_from]. rewrite (IH Hs), Hc. reflexivity.
Qed.

(** A snippet that is not empty but holds nothing except whitespace gives
    the empty description, not the sentinel: the sentinel is returned for
    the empty snippet only, before the cleaning. *)
Theorem whitespace_snippet_gives_empty_description :
  forall snippet : str,
    snippet <> [] ->
    forallb isspace snippet = true ->
    _clean_description snippet = [] /\ _clean_description snippet <> NA.
Proof.
  intros snippet Hne Hws.
  assert (H : _clean_description snippet = []).
  { rewrite clean_description_unfold, (nonempty_true Hne). cbn [negb].
    unfold cleaned_snippet.
    change (lit "&amp;") with (38%N :: lit "amp;").
    change (lit "&nbsp;") with (38%N :: lit "nbsp;").
    rewrite (@replace_in_whitespace _ _ snippet Hws).
    rewrite (@replace_in_whitespace _ _ snippet Hws).
    unfold split_whitespace. rewrite (words_from_whitespace _ Hws). reflexivity. }
  rewrite H. split; [reflexivity | discriminate].
Qed.

Lemma whitespace_snippet_gives_empty_description_witness :
  _clean_description (lit "  ") = [] /\ _clean_description (lit "  ") <> NA.
Proof.
  apply (@whitespace_snippet_gives_empty_description (lit "  ")).
  - discriminate.
  - reflexivity.
Defined.

(** *** Exceptions of the extraction *)

Lemma bind_raise_inv (A B : Type) (m : result A) (k : A -> result B) (e : exn) :
  bind m k = Raise e ->
  m = Raise e \/ exists a, m = Ret a /\ k a = Raise e.
Proof.
  destruct m as [a | e0]; cbn [bind]; [eauto |].
  intro H. injection H as ->. left. reflexivity.
Qed.

Lemma py_in_raises (k : str) (v : value) (e : exn) :
  py_in k v = Raise e -> is_value_error e = true.
Proof. destruct v; cbn [py_in]; intro H; inversion H; reflexivity. Qed.

Lemma py_getitem_raises (v : value) (k : str) (e : exn) :
  py_getitem v k = Raise e -> is_value_error e = true.
Proof.
  destruct v as [| | | | | d]; cbn [py_getitem]; try (intro H; inversion H; reflexivity).
  destruct (dict_get k d); intro H; inversion H; reflexivity.
Qed.

Lemma py_first_raises (v : value) (e : exn) :
  py_first v = Raise e -> is_value_error e = true.
Proof.
  destruct v as [| | | s | l |]; cbn [py_first];
    try (intro H; inversion H; reflexivity).
  - destruct s; intro H; inversion H; reflexivity.
  - destruct l; intro H; inversion H; reflexivity.
Qed.

Lemma py_get_raises (v : value) (k : str) (default : value) (e : exn) :
  py_get v k default = Raise e -> e = AttributeError.
Proof. destruct v; cbn [py_get]; intro H; inversion H; reflexivity. Qed.

Lemma and_truthy_raises (a : result bool) (b : result value) (e : exn) :
  and_truthy a b = Raise e -> a = Raise e \/ b = Raise e.
Proof.
  unfold and_truthy. intro H. apply bind_raise_inv in H.
  destruct H as [H | ([|] & _ & H)]; [auto | | discriminate].
  apply bind_raise_inv in H. destruct H as [H | (v & _ & H)]; [auto | discriminate].
Qed.

Lemma hint_raises (pagemap : value) (k field : str) (e : exn) :
  (hint <- py_getitem pagemap k ;;
   first <- py_first hint ;;
   py_get first field (VStr [])) = Raise e ->
  is_value_error e = true.
Proof.
  intro H. apply bind_raise_inv in H.
  destruct H as [H | (hint & _ & H)]; [exact (py_getitem_raises _ _ H) |].
  apply bind_raise_inv in H.
  destruct H as [H | (first & _ & H)]; [exact (py_first_raises _ H) |].
  rewrite (py_get_raises _ _ _ H). reflexivity.
Qed.

Lemma image_raise_inv (search_result : dict) (e : exn) :
  _extract_image_url search_result = Raise e -> e = AttributeError.
Proof.
  revert e. intros e. unfold _extract_image_url.
  set (pagemap := dict_get_default search_result (lit "pagemap") (VDict [])).
  match goal with |- try_except ?m _ _ = _ -> _ => set (body := m) end.
  assert (Hbody : forall e0, body = Raise e0 -> is_value_error e0 = true).
  { intros e0 H. subst body. apply bind_raise_inv in H.
    destruct H as [H | (has_cse & _ & H)].
    { apply and_truthy_raises in H. destruct H as [H | H];
        [exact (py_in_raises _ _ H) | exact (py_getitem_raises _ _ H)]. }
    destruct has_cse; [exact (hint_raises _ _ _ H) |].
    apply bind_raise_inv in H. destruct H as [H | (has_meta & _ & H)].
    { apply and_truthy_raises in H. destruct H as [H | H];
        [exact (py_in_raises _ _ H) | exact (py_getitem_raises _ _ H)]. }
    destruct has_meta; [exact (hint_raises _ _ _ H) | discriminate]. }
  unfold try_except. destruct body as [image | e0]; [discriminate |].
  specialize (Hbody e0 eq_refl).
  destruct e0; cbn [caught_by_image]; intro H; try discriminate; congruence.
Qed.

(** The image rule lets nothing out but [AttributeError]: the exceptions of
    its membership tests and subscripts are those its handler lists. *)
Theorem image_raises_attribute_error_only :
  forall (search_result : dict) (e : exn),
    _extract_image_url search_result = Raise e -> e = AttributeError.
Proof. exact image_raise_inv. Qed.

Lemma image_raises_attribute_error_only_witness :
  _extract_image_url
    [ (lit "pagemap", VDict [(lit "cse_image", VList [VStr (lit "x")])]) ] =
  Raise AttributeError /\
  AttributeError = AttributeError.
Proof.
  split; [reflexivity |].
  exact (@image_raises_attribute_error_only
           [ (lit "pagemap", VDict [(lit "cse_image", VList [VStr (lit "x")])]) ]
           AttributeError eq_refl).
Defined.

(** The extraction raises nothing but [TypeError] and [AttributeError];
    on a raw result whose title and snippet are strings or absent the only
    exception is the [AttributeError] of the image rule. *)
Theorem extraction_raises_type_or_attribute_error :
  forall (search_result : dict) (e : exn),
    extract_profile_info search_result = Raise e ->
    (e = TypeError \/ e = AttributeError) /\
    (str_or_absent (lit "title") search_result = true ->
     str_or_absent (lit "snippet") search_result = true ->
     e = AttributeError /\ _extract_image_url search_result = Raise AttributeError).
Proof.
  intros search_result e H. unfold extract_profile_info in H.
  set (title_text := dict_get_default search_result (lit "title") (VStr [])) in *.
  set (snippet := dict_get_default search_result (lit "snippet") (VStr [])) in *.
  assert (Htitle : str_or_absent (lit "title") search_result = true ->
                   exists s, title_text = VStr s).
  { intro Hs. destruct (str_or_absent_default _ _ Hs) as (s & Hd & _). eauto. }
  assert (Hsnippet : str_or_absent (lit "snippet") search_result = true ->
                     exists s, snippet = VStr s).
  { intro Hs. destruct (str_or_absent_default _ _ Hs) as (s & Hd & _). eauto. }
  clearbody title_text snippet.
  apply bind_raise_inv in H. destruct H as [H | (name & _ & H)].
  { split.
    - destruct title_text; cbn [name_of_value] in H; try discriminate;
        match type of H with (if ?b then _ else _) = _ => destruct b end;
        inversion H; auto.
    - intros Ht _. destruct (Htitle Ht) as [s ->]. discriminate H. }
  apply bind_raise_inv in H. destruct H as [H | (professional_title & _ & H)].
  { split.
    - unfold title_of_values in H. apply bind_raise_inv in H.
      destruct H as [H | (attempt & _ & H)].
      + destruct title_text as [| | | | l | d]; try (inversion H; auto; fail).
        * cbn [py_in bind] in H.
          match type of H with (if ?b then _ else _) = _ => destruct b end;
            inversion H; auto.
        * cbn [py_in bind] in H.
          match type of H with (if ?b then _ else _) = _ => destruct b end;
            inversion H; auto.
      + destruct attempt; [discriminate |].
        destruct snippet; inversion H; auto.
    - intros Ht Hs. destruct (Htitle Ht) as [t ->]. destruct (Hsnippet Hs) as [s ->].
      cbn [title_of_values bind] in H. destruct (title_from_title t); discriminate H. }
  apply bind_raise_inv in H. destruct H as [H | (image_url & _ & H)].
  { pose proof H as He. apply image_raise_inv in He. subst e.
    split; [auto | intros _ _; split; [reflexivity | exact H]]. }
  apply bind_raise_inv in H. destruct H as [H | (description & _ & H)]; [| discriminate].
  split.
  - destruct snippet; cbn [description_of_value] in H; try discriminate;
      match type of H with (if ?b then _ else _) = _ => destruct b end;
      inversion H; auto.
  - intros _ Hs. destruct (Hsnippet Hs) as [s ->]. discriminate H.
Qed.

Lemma extraction_raises_type_or_attribute_error_witness :
  extract_profile_info [(lit "title", VNone)] = Raise TypeError /\
  (TypeError = TypeError \/ TypeError = AttributeError).
Proof.
  split; [reflexivity |].
  exact (proj1 (@extraction_raises_type_or_attribute_error
                  [(lit "title", VNone)] TypeError eq_refl)).
Defined.

(** *** What the extraction reads *)

Lemma dict_get_default_set_other (k k0 : str) (v default : value) (d : dict) :
  k <> k0 ->
  dict_get_default (dict_set k v d) k0 default = dict_get_default d k0 default.
Proof.
  intro Hne. unfold dict_get_default. rewrite dict_get_set_other by exact Hne.
  reflexivity.
Qed.

Lemma extraction_reads_four_keys (search_result : dict) (k : str) (v : value) :
  ~ In k extraction_keys ->
  extract_profile_info (dict_set k v search_result) =
  extract_profile_info search_result.
Proof.
  intro Hk. unfold extraction_keys in Hk. cbn [In] in Hk.
  unfold extract_profile_info, _extract_image_url.
  rewrite !dict_get_default_set_other by (intro Heq; apply Hk; rewrite Heq; tauto).
  reflexivity.
Qed.

(** The extraction reads the keys [title], [snippet], [link] and [pagemap]
    and nothing else: setting any other key of a raw result, as the
    retriever does with [page_number] and [result_index], changes neither
    the record nor the exception. *)
Theorem extraction_ignores_other_keys :
  forall (search_result : dict) (k : str) (v : value),
    ~ In k extraction_keys ->
    extract_profile_info (dict_set k v search_result) =
    extract_profile_info search_result.
Proof. exact extraction_reads_four_keys. Qed.

Lemma extraction_ignores_other_keys_witness :
  extract_profile_info
    (dict_set (lit "result_index") (VInt 7)
       [(lit "title", VStr (lit "Jane Doe - Senior Engineer | LinkedIn"))]) =
  extract_profile_info
    [(lit "title", VStr (lit "Jane Doe - Senior Engineer | LinkedIn"))].
Proof.
  apply (@extraction_ignores_other_keys
           [(lit "title", VStr (lit "Jane Doe - Senior Engineer | LinkedIn"))]
           (lit "result_index") (VInt 7)).
  cbn [extraction_keys In]. intros [H | [H | [H | [H | []]]]]; discriminate H.
Defined.

(** *** The honorific *)







(** ** Further properties of the retriever *)

Section SearchRuns.

Variable http_get : Z -> result value.
Variable progress_callback : option (Z -> Z -> Z -> result unit).
Variable max_pages : Z.
Variable delay_seconds : Z.

Local Abbreviation run := (search_loop http_get progress_callback max_pages delay_seconds).
Local Abbreviation said := (called progress_callback).
Local Abbreviation items_of := (page_items http_get).

(** One iteration of the loop: the callback raises at its first call; or
    the page breaks the loop; or the page is appended and the sleep raises;
    or the page is appended and the callback raises at its second call; or
    the page is appended and the loop goes on. *)
Lemma run_S_cases (n : nat) (page : Z) (all_results : list value) :
  let before := Z.of_nat (List.length all_results) in
  (exists e,
      callback_raises progress_callback (page - 1) max_pages before e /\
      run (S n) page all_results = ([EvProgress (page - 1) max_pages before], Raise e)) \/
  (fetch_page http_get page all_results = None /\
   run (S n) page all_results =
     (said (page - 1) max_pages before ++ [EvRequest page (start_index_of page)],
      Ret all_results)) \/
  (exists all_results',
      fetch_page http_get page all_results = Some all_results' /\
      let after := Z.of_nat (List.length all_results') in
      (((page < max_pages)%Z /\ (sleep_limit <= delay_seconds)%Z /\
        run (S n) page all_results =
          (said (page - 1) max_pages before ++ [EvRequest page (start_index_of page)],
           Raise OverflowError)) \/
       (exists e,
           callback_raises progress_callback page max_pages after e /\
           run (S n) page all_results =
             (said (page - 1) max_pages before ++
              EvRequest page (start_index_of page) ::
              delay_events max_pages delay_seconds page ++
              [EvProgress page max_pages after],
              Raise e)) \/
       (fst (run (S n) page all_results) =
          said (page - 1) max_pages before ++
          EvRequest page (start_index_of page) ::
          delay_events max_pages delay_seconds page ++
          said page max_pages after ++
          fst (run n (page + 1) all_results') /\
        snd (run (S n) page all_results) = snd (run n (page + 1) all_results')))).
Proof.
  cbv zeta. rewrite loop_S. unfold call_progress, called, callback_raises.
  destruct progress_callback as [callback|].
  - destruct (callback (page - 1)%Z max_pages (Z.of_nat (List.length all_results)))
      as [[]|e] eqn:Hfirst.
    2:{ left. exists e. split; [eauto | reflexivity]. }
    right. destruct (fetch_page http_get page all_results) as [all_results'|].
    2:{ left. split; reflexivity. }
    right. exists all_results'. split; [reflexivity |].
    destruct (delay_outcome_cases max_pages delay_seconds page)
      as [-> | (-> & Hp & Hl)].
    2:{ left. split; [exact Hp | split; [exact Hl | reflexivity]]. }
    right.
    destruct (callback page max_pages (Z.of_nat (List.length all_results')))
      as [[]|e] eqn:Hsecond.
    + right. split; reflexivity.
    + left. exists e. split; [eauto | reflexivity].
  - right. destruct (fetch_page http_get page all_results) as [all_results'|].
    2:{ left. split; reflexivity. }
    right. exists all_results'. split; [reflexivity |].
    destruct (delay_outcome_cases max_pages delay_seconds page)
      as [-> | (-> & Hp & Hl)].
    2:{ left. split; [exact Hp | split; [exact Hl | reflexivity]]. }
    right. right. split; reflexivity.
Qed.

Lemma in_said (a b c : Z) (ev : event) :
  In ev (said a b c) -> ev = EvProgress a b c.
Proof.
  unfold called. destruct progress_callback; [| intros []].
  intros [<- | []]. reflexivity.
Qed.

(** *** What a run returns *)

Lemma run_returns (n : nat) :
  forall (page : Z) (all_results results : list value),
    snd (run n page all_results) = Ret results ->
    exists k : nat,
      (k <= n)%nat /\
      (forall q, (page <= q < page + Z.of_nat k)%Z ->
                 page_returns http_get q (items_of q)) /\
      results =
        all_results ++ tagged_pages items_of k page (List.length all_results).
Proof.
  induction n as [| n IH]; intros page all_results results Hres.
  { cbn in Hres. injection Hres as <-. exists 0%nat.
    split; [lia |]. split; [intros q Hq; lia |].
    cbn [tagged_pages]. rewrite app_nil_r. reflexivity. }
  destruct (run_S_cases n page all_results)
    as [(e & _ & Hrun) | [(Hfetch & Hrun) | (next & Hfetch & [(_ & _ & Hrun) | [(e & _ & Hrun) | (_ & Hsnd)]])]].
  - rewrite Hrun in Hres. discriminate.
  - rewrite Hrun in Hres. injection Hres as <-. exists 0%nat.
    split; [lia |]. split; [intros q Hq; lia |].
    cbn [tagged_pages]. rewrite app_nil_r. reflexivity.
  - rewrite Hrun in Hres. discriminate.
  - rewrite Hrun in Hres. discriminate.
  - rewrite Hsnd in Hres. destruct (IH _ _ _ Hres) as (k & Hk & Hpages & Hresults).
    destruct (fetch_page_some_inv _ _ _ Hfetch) as (Hpage & Hnext).
    exists (S k). split; [lia |]. split.
    + intros q Hq. destruct (Z.eq_dec q page) as [-> | Hne]; [exact Hpage |].
      apply Hpages. lia.
    + rewrite Hresults, Hnext. cbn [tagged_pages].
      rewrite length_app, length_map, <- app_assoc. reflexivity.
Qed.

Lemma tagged_pages_fields (items : Z -> list dict) (k : nat) :
  forall (page : Z) (before : nat) (v : value),
    In v (tagged_pages items k page before) ->
    exists (d : dict) (p : Z) (i : Z),
      v = VDict d /\
      dict_get (lit "page_number") d = Some (VInt p) /\
      dict_get (lit "result_index") d = Some (VInt i) /\
      (page <= p < page + Z.of_nat k)%Z /\
      (Z.of_nat before < i <=
       Z.of_nat before + Z.of_nat (List.length (tagged_pages items k page before)))%Z.
Proof.
  induction k as [| k IH]; intros page before v Hin; [destruct Hin |].
  cbn [tagged_pages] in *. rewrite length_app, length_map.
  apply in_app_or in Hin. destruct Hin as [Hin | Hin].
  - apply in_map_iff in Hin. destruct Hin as (d0 & <- & Hd0).
    destruct (tagged_fields page before d0) as (d & Hd & Hp & Hi).
    exists d, page, (Z.of_nat before + 1)%Z.
    repeat split; try assumption; try lia.
    destruct (items page); [destruct Hd0 | cbn [List.length]; lia].
  - destruct (IH _ _ _ Hin) as (d & p & i & Hd & Hp & Hi & Hrange & Hindex).
    exists d, p, i. repeat split; try assumption; lia.
Qed.

(** Whatever the upstream answers, a run that returns, returns the items
    of the pages [1..k] for some [k <= max_pages], all of which returned a
    non-empty list of objects: page after page in response order, every
    item an object that carries its page number and the index of the first
    item of its page. *)
Theorem search_returns_leading_pages :
  forall results : list value,
    snd (search http_get progress_callback max_pages delay_seconds) = Ret results ->
    exists k : nat,
      (Z.of_nat k <= Z.max 0 max_pages)%Z /\
      (forall q, (1 <= q <= Z.of_nat k)%Z ->
                 page_returns http_get q (items_of q)) /\
      results = tagged_pages items_of k 1 0.
Proof.
  intros results Hres. unfold search in Hres.
  destruct (run_returns _ _ _ Hres) as (k & Hk & Hpages & Hresults).
  exists k. split; [lia |]. split; [| exact Hresults].
  intros q Hq. apply Hpages. lia.
Qed.

(** Every item a run returns is an object with a [page_number] between 1
    and [max_pages] and a [result_index] between 1 and the number of items
    returned. *)
Theorem search_results_are_tagged :
  forall (results : list value) (v : value),
    snd (search http_get progress_callback max_pages delay_seconds) = Ret results ->
    In v results ->
    exists (d : dict) (p : Z) (i : Z),
      v = VDict d /\
      dict_get (lit "page_number") d = Some (VInt p) /\
      dict_get (lit "result_index") d = Some (VInt i) /\
      (1 <= p <= max_pages)%Z /\
      (1 <= i <= Z.of_nat (List.length results))%Z.
Proof.
  intros results v Hres Hin. unfold search in Hres.
  destruct (run_returns _ _ _ Hres) as (k & Hk & _ & Hresults).
  cbn [app List.length] in Hresults. subst results.
  destruct (tagged_pages_fields _ _ _ _ _ Hin)
    as (d & p & i & Hd & Hp & Hi & Hrange & Hindex).
  exists d, p, i. repeat split; try assumption; lia.
Qed.

(** *** Exceptions of a run *)




(** *** The requests of a run *)

Lemma requests_of_app (t1 t2 : list event) :
  requests_of (t1 ++ t2) = requests_of t1 ++ requests_of t2.
Proof.
  induction t1 as [| ev t1 IH]; [reflexivity |].
  destruct ev; cbn [app requests_of]; rewrite IH; reflexivity.
Qed.

Lemma requests_of_said (a b c : Z) : requests_of (said a b c) = [].
Proof. unfold called. destruct progress_callback; reflexivity. Qed.

Lemma requests_of_delay (page : Z) :
  requests_of (delay_events max_pages delay_seconds page) = [].
Proof.
  unfold delay_events.
  destruct ((page <? max_pages)%Z && (0 <? delay_seconds)%Z); reflexivity.
Qed.

Lemma run_requests (n : nat) :
  forall (page : Z) (all_results : list value),
    exists k : nat,
      (k <= n)%nat /\
      requests_of (fst (run n page all_results)) = consecutive_requests k page.
Proof.
  induction n as [| n IH]; intros page all_results.
  { exists 0%nat. split; [lia | reflexivity]. }
  destruct (run_S_cases n page all_results)
    as [(e' & Hcb & Hrun) | [(Hfetch & Hrun) | (next & Hfetch & [(Hp & Hl & Hrun) | [(e' & Hcb & Hrun) | (Hfst & Hsnd)]])]].
  - exists 0%nat. rewrite Hrun. split; [lia | reflexivity].
  - exists 1%nat. rewrite Hrun. cbn [fst].
    rewrite requests_of_app, requests_of_said. split; [lia | reflexivity].
  - exists 1%nat. rewrite Hrun. cbn [fst].
    rewrite requests_of_app, requests_of_said. split; [lia | reflexivity].
  - exists 1%nat. rewrite Hrun. cbn [fst].
    rewrite requests_of_app, requests_of_said. cbn [app requests_of].
    rewrite requests_of_app, requests_of_delay. split; [lia | reflexivity].
  - destruct (IH (page + 1)%Z next) as (k & Hk & Hreq).
    exists (S k). rewrite Hfst. split; [lia |].
    rewrite requests_of_app, requests_of_said. cbn [app requests_of].
    rewrite requests_of_app, requests_of_delay.
    rewrite requests_of_app, requests_of_said. cbn [app].
    rewrite Hreq. reflexivity.
Qed.

Lemma consecutive_requests_seq (k : nat) :
  forall j : nat,
    consecutive_requests k (Z.of_nat j) =
    map (fun i => (Z.of_nat i, (10 * (Z.of_nat i - 1) + 1)%Z)) (seq j k).
Proof.
  induction k as [| k IH]; intro j; [reflexivity |].
  cbn [consecutive_requests seq map].
  replace (Z.of_nat j + 1)%Z with (Z.of_nat (S j)) by lia. rewrite IH.
  unfold start_index_of, results_per_page. f_equal. f_equal. lia.
Qed.

(** A run asks for the pages 1, 2, ..., k in this order, each once, with
    the start offsets 1, 11, 21, ...; it never asks for more than
    [max_pages] pages, and for none when [max_pages] is not positive. *)
Theorem search_requests_consecutive_pages :
  exists k : nat,
    (Z.of_nat k <= Z.max 0 max_pages)%Z /\
    requests_of (fst (search http_get progress_callback max_pages delay_seconds)) =
      map (fun i => (Z.of_nat i, (10 * (Z.of_nat i - 1) + 1)%Z)) (seq 1 k).
Proof.
  unfold search.
  destruct (run_requests (Z.to_nat max_pages) 1 []) as (k & Hk & Hreq).
  exists k. split; [lia |]. rewrite Hreq. exact (consecutive_requests_seq k 1).
Qed.

(** *** The calls of the callback *)

Lemma progress_of_app (t1 t2 : list event) :
  progress_of (t1 ++ t2) = progress_of t1 ++ progress_of t2.
Proof.
  induction t1 as [| ev t1 IH]; [reflexivity |].
  destruct ev; cbn [app progress_of]; rewrite IH; reflexivity.
Qed.

Lemma progress_of_said (a b c : Z) :
  progress_of (said a b c) = [] \/ progress_of (said a b c) = [(a, b, c)].
Proof. unfold called. destruct progress_callback; [right | left]; reflexivity. Qed.

Lemma progress_of_delay (page : Z) :
  progress_of (delay_events max_pages delay_seconds page) = [].
Proof.
  unfold delay_events.
  destruct ((page <? max_pages)%Z && (0 <? delay_seconds)%Z); reflexivity.
Qed.

Lemma fetch_page_grows (page : Z) (all_results next : list value) :
  fetch_page http_get page all_results = Some next ->
  (List.length all_results <= List.length next)%nat.
Proof.
  intro H. destruct (fetch_page_some_inv _ _ _ H) as [_ ->].
  rewrite length_app. lia.
Qed.

Lemma run_progress_bounds (n : nat) :
  forall (page : Z) (all_results : list value),
    Forall (fun x => (page - 1 <= fst (fst x) < page + Z.of_nat n)%Z /\
                     snd (fst x) = max_pages /\
                     (Z.of_nat (List.length all_results) <= snd x)%Z)
           (progress_of (fst (run n page all_results))).
Proof.
  induction n as [| n IH]; intros page all_results; [constructor |].
  assert (Hfirst :
    Forall (fun x => (page - 1 <= fst (fst x) < page + Z.of_nat (S n))%Z /\
                     snd (fst x) = max_pages /\
                     (Z.of_nat (List.length all_results) <= snd x)%Z)
           (progress_of (said (page - 1)%Z max_pages
                              (Z.of_nat (List.length all_results))))).
  { destruct (progress_of_said (page - 1) max_pages
                (Z.of_nat (List.length all_results))) as [-> | ->];
      [constructor | constructor; [cbn [fst snd]; lia | constructor]]. }
  destruct (run_S_cases n page all_results)
    as [(e' & Hcb & Hrun) | [(Hfetch & Hrun) | (next & Hfetch & [(Hp & Hl & Hrun) | [(e' & Hcb & Hrun) | (Hfst & Hsnd)]])]].
  - rewrite Hrun. cbn [fst progress_of].
    constructor; [cbn [fst snd]; lia | constructor].
  - rewrite Hrun. cbn [fst]. rewrite progress_of_app. cbn [progress_of].
    rewrite app_nil_r. exact Hfirst.
  - rewrite Hrun. cbn [fst]. rewrite progress_of_app. cbn [progress_of].
    rewrite app_nil_r. exact Hfirst.
  - assert (Hgrow := fetch_page_grows _ _ Hfetch).
    rewrite Hrun. cbn [fst]. rewrite progress_of_app. cbn [progress_of].
    rewrite progress_of_app, progress_of_delay. cbn [app progress_of].
    apply Forall_app. split; [exact Hfirst |].
    constructor; [cbn [fst snd]; lia | constructor].
  - assert (Hgrow := fetch_page_grows _ _ Hfetch).
    rewrite Hfst. rewrite progress_of_app. cbn [progress_of].
    rewrite progress_of_app, progress_of_delay. cbn [app].
    rewrite progress_of_app.
    apply Forall_app. split; [exact Hfirst |].
    apply Forall_app. split.
    + destruct (progress_of_said page max_pages (Z.of_nat (List.length next)))
        as [-> | ->]; [constructor | constructor; [cbn [fst snd]; lia | constructor]].
    + eapply Forall_impl; [| exact (IH (page + 1)%Z next)].
      cbn beta. intros x (Ha & Hb & Hc). split; [lia | split; [exact Hb | lia]].
Qed.

Lemma strongly_sorted_cons_bound (x : Z * Z * Z) (l : list (Z * Z * Z)) :
  StronglySorted progress_le l ->
  Forall (progress_le x) l ->
  StronglySorted progress_le (x :: l).
Proof. intros Hs Hf. constructor; assumption. Qed.

Lemma run_progress_sorted (n : nat) :
  forall (page : Z) (all_results : list value),
    StronglySorted progress_le (progress_of (fst (run n page all_results))).
Proof.
  induction n as [| n IH]; intros page all_results; [constructor |].
  assert (Hone : forall x, StronglySorted progress_le [x]).
  { intro x. constructor; constructor. }
  assert (Hprefix :
    forall l,
      StronglySorted progress_le l ->
      Forall (progress_le (page - 1, max_pages, Z.of_nat (List.length all_results))%Z) l ->
      StronglySorted progress_le
        (progress_of (said (page - 1)%Z max_pages
                           (Z.of_nat (List.length all_results))) ++ l)).
  { intros l Hs Hf.
    destruct (progress_of_said (page - 1) max_pages
                (Z.of_nat (List.length all_results))) as [-> | ->];
      [exact Hs | constructor; assumption]. }
  destruct (run_S_cases n page all_results)
    as [(e' & Hcb & Hrun) | [(Hfetch & Hrun) | (next & Hfetch & [(Hp & Hl & Hrun) | [(e' & Hcb & Hrun) | (Hfst & Hsnd)]])]].
  - rewrite Hrun. apply Hone.
  - rewrite Hrun. cbn [fst]. rewrite progress_of_app. cbn [progress_of].
    apply Hprefix; constructor.
  - rewrite Hrun. cbn [fst]. rewrite progress_of_app. cbn [progress_of].
    apply Hprefix; constructor.
  - assert (Hgrow := fetch_page_grows _ _ Hfetch).
    rewrite Hrun. cbn [fst]. rewrite progress_of_app. cbn [progress_of].
    rewrite progress_of_app, progress_of_delay. cbn [app progress_of].
    apply Hprefix; [apply Hone |].
    constructor; [| constructor]. unfold progress_le. cbn [fst snd]. lia.
  - assert (Hgrow := fetch_page_grows _ _ Hfetch).
    rewrite Hfst. rewrite progress_of_app. cbn [progress_of].
    rewrite progress_of_app, progress_of_delay. cbn [app].
    rewrite progress_of_app.
    assert (Hrest := run_progress_bounds n (page + 1)%Z next).
    assert (Htail :
      StronglySorted progress_le
        (progress_of (said page max_pages (Z.of_nat (List.length next))) ++
         progress_of (fst (run n (page + 1) next)))).
    { destruct (progress_of_said page max_pages (Z.of_nat (List.length next)))
        as [-> | ->]; [exact (IH _ _) |].
      constructor; [exact (IH _ _) |].
      eapply Forall_impl; [| exact Hrest].
      cbn beta. intros x (Ha & _ & Hc). unfold progress_le. cbn [fst snd]. lia. }
    apply Hprefix; [exact Htail |].
    apply Forall_app. split.
    + destruct (progress_of_said page max_pages (Z.of_nat (List.length next)))
        as [-> | ->]; [constructor |].
      constructor; [| constructor]. unfold progress_le. cbn [fst snd]. lia.
    + eapply Forall_impl; [| exact Hrest].
      cbn beta. intros x (Ha & _ & Hc). unfold progress_le. cbn [fst snd]. lia.
Qed.

(** The callback is always told [max_pages] as the total, a number of
    completed pages between 0 and [max_pages] and a number of items that is
    not negative, and from one call to any later one neither the pages
    completed nor the items accumulated go down. *)
Theorem progress_never_goes_back :
  StronglySorted progress_le
    (progress_of (fst (search http_get progress_callback max_pages delay_seconds))) /\
  Forall (fun x => (0 <= fst (fst x) <= max_pages)%Z /\
                   snd (fst x) = max_pages /\
                   (0 <= snd x)%Z)
         (progress_of (fst (search http_get progress_callback max_pages delay_seconds))).
Proof.
  unfold search. split; [apply run_progress_sorted |].
  destruct (Z.le_gt_cases 0 max_pages) as [Hpos | Hneg].
  - eapply Forall_impl; [| exact (run_progress_bounds (Z.to_nat max_pages) 1 [])].
    cbn beta. cbn [List.length]. intros x (Ha & Hb & Hc).
    split; [lia | split; [exact Hb | lia]].
  - replace (Z.to_nat max_pages) with 0%nat by lia. constructor.
Qed.

(** *** A page without items *)

Lemma fetch_page_no_items (page : Z) (body : value) (all_results : list value) :
  http_get (start_index_of page) = Ret body ->
  no_items body = true ->
  fetch_page http_get page all_results = None.
Proof.
  intros Hget Hno. unfold fetch_page, try_block, _make_request. rewrite Hget.
  cbn [bind]. unfold no_items in Hno.
  destruct (truthy body) eqn:Hbody; [| reflexivity].
  cbn [negb orb] in Hno. destruct body as [| | | | | d]; try discriminate.
  cbn [negb py_get bind]. unfold absent_or_falsy in Hno. unfold dict_get_default.
  destruct (dict_get (lit "items") d) as [items|]; [| reflexivity].
  apply negb_true_iff in Hno. rewrite Hno. reflexivity.
Qed.

Lemma run_stops_at (p : Z) :
  (forall all_results, fetch_page http_get p all_results = None) ->
  forall (n : nat) (page : Z) (all_results : list value),
    In (EvRequest p (start_index_of p)) (fst (run n page all_results)) ->
    (page <= p)%Z /\
    exists (results : list value) (before : list event),
      results =
        all_results ++
        tagged_pages items_of (Z.to_nat (p - page)) page (List.length all_results) /\
      snd (run n page all_results) = Ret results /\
      fst (run n page all_results) =
        before ++
        said (p - 1)%Z max_pages (Z.of_nat (List.length results)) ++
        [EvRequest p (start_index_of p)].
Proof.
  intro Hbreak. induction n as [| n IH]; intros page all_results Hin; [destruct Hin |].
  assert (Hnot : forall a b c,
             ~ In (EvRequest p (start_index_of p)) (said a b c)).
  { intros a b c H. apply in_said in H. discriminate. }
  destruct (run_S_cases n page all_results)
    as [(e' & Hcb & Hrun) | [(Hfetch & Hrun) | (next & Hfetch & [(Hp & Hl & Hrun) | [(e' & Hcb & Hrun) | (Hfst & Hsnd)]])]].
  - rewrite Hrun in Hin. destruct Hin as [H | []]. discriminate.
  - rewrite Hrun in *. cbn [fst snd] in *.
    apply in_app_or in Hin. destruct Hin as [Hin | [Heq | []]];
      [exfalso; exact (Hnot _ _ _ Hin) |].
    injection Heq as <-. split; [lia |].
    exists all_results, []. rewrite Z.sub_diag. cbn [Z.to_nat tagged_pages].
    rewrite app_nil_r. repeat split.
  - exfalso. rewrite Hrun in Hin. cbn [fst] in Hin.
    apply in_app_or in Hin. destruct Hin as [Hin | [Heq | []]];
      [exact (Hnot _ _ _ Hin) |].
    injection Heq as <-. rewrite Hbreak in Hfetch. discriminate.
  - exfalso. rewrite Hrun in Hin. cbn [fst] in Hin.
    apply in_app_or in Hin. destruct Hin as [Hin | [Heq | Hin]];
      [exact (Hnot _ _ _ Hin) | |].
    + injection Heq as <-. rewrite Hbreak in Hfetch. discriminate.
    + apply in_app_or in Hin. destruct Hin as [Hin | [H | []]]; [| discriminate].
      apply in_delay_events in Hin. destruct Hin as [Hin _]. discriminate.
  - rewrite Hfst in Hin.
    apply in_app_or in Hin. destruct Hin as [Hin | [Heq | Hin]];
      [exfalso; exact (Hnot _ _ _ Hin) | |].
    { injection Heq as <-. rewrite Hbreak in Hfetch. discriminate. }
    apply in_app_or in Hin. destruct Hin as [Hin | Hin].
    { apply in_delay_events in Hin. destruct Hin as [Hin _]. discriminate. }
    apply in_app_or in Hin. destruct Hin as [Hin | Hin];
      [exfalso; exact (Hnot _ _ _ Hin) |].
    destruct (IH _ _ Hin) as (Hle & results & before & Hresults & Hres & Htrace).
    destruct (fetch_page_some_inv _ _ _ Hfetch) as (_ & Hnext).
    split; [lia |].
    exists results,
      (said (page - 1)%Z max_pages (Z.of_nat (List.length all_results)) ++
       EvRequest page (start_index_of page) ::
       delay_events max_pages delay_seconds page ++
       said page max_pages (Z.of_nat (List.length next)) ++ before).
    split; [| split].
    + rewrite Hresults, Hnext.
      replace (Z.to_nat (p - page)) with (S (Z.to_nat (p - (page + 1)))) by lia.
      cbn [tagged_pages]. rewrite length_app, length_map, <- app_assoc. reflexivity.
    + rewrite Hsnd. exact Hres.
    + rewrite Hfst, Htrace. rewrite <- !app_assoc. cbn [app].
      rewrite <- !app_assoc. reflexivity.
Qed.

(** When the response to the request of page [p] carries no items (the
    body tests false, or [items] is missing or empty), the run stops there:
    it returns the items of the pages before [p], and its last events are
    the call of the callback that reports [p - 1] pages completed and the
    request of page [p]; no call reports page [p]. *)
Theorem empty_page_stops_search :
  forall (p : Z) (body : value),
    In (EvRequest p (start_index_of p))
       (fst (search http_get progress_callback max_pages delay_seconds)) ->
    http_get (start_index_of p) = Ret body ->
    no_items body = true ->
    exists (results : list value) (before : list event),
      results = tagged_pages items_of (Z.to_nat (p - 1)) 1 0 /\
      snd (search http_get progress_callback max_pages delay_seconds) = Ret results /\
      fst (search http_get progress_callback max_pages delay_seconds) =
        before ++
        said (p - 1)%Z max_pages (Z.of_nat (List.length results)) ++
        [EvRequest p (start_index_of p)].
Proof.
  intros p body Hin Hget Hno. unfold search in *.
  assert (Hbreak : forall all_results, fetch_page http_get p all_results = None).
  { intro all_results. exact (fetch_page_no_items _ all_results Hget Hno). }
  destruct (@run_stops_at p Hbreak _ _ _ Hin) as (_ & results & before & H).
  exists results, before. exact H.
Qed.

(** *** The sleeps of a run whose pages all succeed *)




End SearchRuns.

(** ** Properties of the table of profiles *)

Lemma extraction_returns_profile_of (search_result : dict) (profile : dict) :
  extract_profile_info search_result = Ret profile ->
  exists name title link description image,
    profile = profile_of name title link description image.
Proof.
  unfold extract_profile_info. intro H.
  destruct (name_of_value _) as [name|]; [| discriminate].
  cbn [bind] in H. destruct (title_of_values _ _) as [title|]; [| discriminate].
  cbn [bind] in H. destruct (_extract_image_url _) as [image|]; [| discriminate].
  cbn [bind] in H. destruct (description_of_value _) as [description|]; [| discriminate].
  cbn [bind] in H. injection H as <-. unfold profile_of. eauto 6.
Qed.

Lemma well_typed_extraction (search_result : dict) :
  well_typed_result search_result = true ->
  exists name title link description image : str,
    extract_profile_info search_result =
    Ret (profile_of (VStr name) (VStr title) (VStr link)
                    (VStr description) (VStr image)).
Proof.
  intro Hwt. unfold well_typed_result in Hwt.
  apply andb_true_iff in Hwt. destruct Hwt as [Hwt Hpagemap].
  apply andb_true_iff in Hwt. destruct Hwt as [Hwt Hlink].
  apply andb_true_iff in Hwt. destruct Hwt as [Htitle Hsnippet].
  destruct (str_or_absent_default _ _ Htitle) as (t & Ht & _).
  destruct (str_or_absent_default _ _ Hsnippet) as (s & Hs & _).
  destruct (str_or_absent_default _ _ Hlink) as (l & Hl & _).
  destruct (image_is_str _ Hpagemap) as (image & Hi).
  exists (_extract_name_from_title t), (_extract_title_from_content t s), l,
         (_clean_description s), image.
  rewrite (extract_profile_info_str _ Ht Hs Hi), Hl. reflexivity.
Qed.

Lemma extract_all_length (items : list value) (profiles : list dict) :
  extract_all items = Ret profiles ->
  List.length profiles = List.length items.
Proof.
  revert profiles. induction items as [| item items IH]; intros profiles H.
  - injection H as <-. reflexivity.
  - cbn [extract_all] in H. destruct (extract_item item); [| discriminate].
    cbn [bind] in H. destruct (extract_all items) as [rest|]; [| discriminate].
    cbn [bind] in H. injection H as <-. cbn [List.length]. rewrite (IH rest eq_refl).
    reflexivity.
Qed.

Lemma extract_all_nth (items : list value) (profiles : list dict) :
  extract_all items = Ret profiles ->
  forall (i : nat) (item : value),
    nth_error items i = Some item ->
    exists profile,
      extract_item item = Ret profile /\ nth_error profiles i = Some profile.
Proof.
  revert profiles. induction items as [| first items IH]; intros profiles H i item Hi.
  - destruct i; discriminate.
  - cbn [extract_all] in H. destruct (extract_item first) as [p|] eqn:Hp; [| discriminate].
    cbn [bind] in H. destruct (extract_all items) as [rest|]; [| discriminate].
    cbn [bind] in H. injection H as <-. destruct i as [| i].
    + injection Hi as <-. exists p. split; [exact Hp | reflexivity].
    + exact (IH rest eq_refl i item Hi).
Qed.

Lemma extract_all_well_typed (items : list value) :
  Forall (fun v => exists d, v = VDict d /\ well_typed_result d = true) items ->
  exists profiles,
    extract_all items = Ret profiles /\
    Forall (fun profile =>
              exists name title link description image : str,
                profile = profile_of (VStr name) (VStr title) (VStr link)
                                     (VStr description) (VStr image))
           profiles.
Proof.
  induction 1 as [| item items (d & -> & Hwt) _ (profiles & Hall & Hshape)].
  - exists []. split; [reflexivity | constructor].
  - destruct (well_typed_extraction _ Hwt)
      as (name & title & link & description & image & Hp).
    eexists. cbn [extract_all extract_item]. rewrite Hp, Hall. cbn [bind].
    split; [reflexivity |]. constructor; [eauto 6 | exact Hshape].
Qed.

(** For items that are well-typed raw results the extraction of every
    item returns, and the table is what the constructor makes, with the
    columns [name, title, link, description, image], of one record per item
    in the order of the items: record [i] is the profile extracted from
    item [i], with its five fields strings. *)
Theorem dataframe_of_well_typed_items :
  forall (Frame : Type) (pd_DataFrame : list dict -> list str -> result Frame)
         (items : list value),
    Forall (fun v => exists d, v = VDict d /\ well_typed_result d = true) items ->
    exists profiles : list dict,
      profiles_to_dataframe pd_DataFrame items =
        pd_DataFrame profiles
          [lit "name"; lit "title"; lit "link"; lit "description"; lit "image"] /\
      List.length profiles = List.length items /\
      Forall (fun profile =>
                exists name title link description image : str,
                  profile = profile_of (VStr name) (VStr title) (VStr link)
                                       (VStr description) (VStr image))
             profiles /\
      (forall (i : nat) (d : dict),
          nth_error items i = Some (VDict d) ->
          exists profile,
            extract_profile_info d = Ret profile /\
            nth_error profiles i = Some profile).
Proof.
  intros Frame pd_DataFrame items Hitems.
  destruct (extract_all_well_typed Hitems) as (profiles & Hall & Hshape).
  exists profiles. unfold profiles_to_dataframe. rewrite Hall. cbn [bind].
  split; [reflexivity |]. split; [exact (extract_all_length _ Hall) |].
  split; [exact Hshape |].
  intros i d Hi.
  destruct (extract_all_nth _ Hall _ Hi) as (profile & Hp & Hnth).
  exists profile. split; [exact Hp | exact Hnth].
Qed.

Lemma extract_all_raises (good : list value) (bad : value) (rest : list value)
    (e : exn) :
  Forall (fun v => exists profile, extract_item v = Ret profile) good ->
  extract_item bad = Raise e ->
  extract_all (good ++ bad :: rest) = Raise e.
Proof.
  intros Hgood Hbad. induction Hgood as [| v good (profile & Hv) _ IH].
  - cbn [app extract_all]. rewrite Hbad. reflexivity.
  - cbn [app extract_all]. rewrite Hv, IH. reflexivity.
Qed.

(** The table is all or nothing: the first item whose extraction raises
    makes [profiles_to_dataframe] raise that exception, whatever the other
    items are, before the constructor of the table is called. *)
Theorem dataframe_fails_with_first_bad_item :
  forall (Frame : Type) (pd_DataFrame : list dict -> list str -> result Frame)
         (good : list value) (bad : value) (rest : list value) (e : exn),
    Forall (fun v => exists profile, extract_item v = Ret profile) good ->
    extract_item bad = Raise e ->
    profiles_to_dataframe pd_DataFrame (good ++ bad :: rest) = Raise e.
Proof.
  intros Frame pd_DataFrame good bad rest e Hgood Hbad. unfold profiles_to_dataframe.
  rewrite (extract_all_raises _ rest Hgood Hbad). reflexivity.
Qed.

Lemma extract_item_tagged (page : Z) (before : nat) (d : dict) :
  extract_item (tagged page before d) = extract_item (VDict d).
Proof.
  unfold tagged. cbn [extract_item].
  rewrite !extraction_reads_four_keys;
    [reflexivity | |];
    cbn [extraction_keys In]; intros [H | [H | [H | [H | []]]]]; discriminate H.
Qed.

Lemma extract_all_tagged (items : Z -> list dict) (k : nat) :
  forall (page : Z) (before : nat),
    extract_all (tagged_pages items k page before) =
    extract_all (raw_pages items k page).
Proof.
  induction k as [| k IH]; intros page before; [reflexivity |].
  cbn [tagged_pages raw_pages].
  generalize (IH (page + 1)%Z (before + List.length (items page))%nat).
  generalize (tagged_pages items k (page + 1) (before + List.length (items page))).
  generalize (raw_pages items k (page + 1)).
  intros raw tagged_rest Hrest.
  induction (items page) as [| d ds IHd]; [exact Hrest |].
  cbn [map app extract_all]. rewrite extract_item_tagged, IHd. reflexivity.
Qed.

(** The table made from what a run returns is the table of the items the
    upstream sent for the pages [1..k] the run appended, in order: the page
    numbers and result indices the retriever adds leave it unchanged. *)
Theorem dataframe_of_search_results :
  forall (Frame : Type) (pd_DataFrame : list dict -> list str -> result Frame)
         (http_get : Z -> result value)
         (progress_callback : option (Z -> Z -> Z -> result unit))
         (max_pages delay_seconds : Z) (results : list value),
    snd (search http_get progress_callback max_pages delay_seconds) = Ret results ->
    exists k : nat,
      (Z.of_nat k <= Z.max 0 max_pages)%Z /\
      (forall q, (1 <= q <= Z.of_nat k)%Z ->
                 page_returns http_get q (page_items http_get q)) /\
      profiles_to_dataframe pd_DataFrame results =
      profiles_to_dataframe pd_DataFrame (raw_pages (page_items http_get) k 1).
Proof.
  intros Frame pd_DataFrame http_get progress_callback max_pages delay_seconds
         results Hres.
  unfold search in Hres.
  destruct (run_returns _ _ _ _ _ _ _ Hres) as (k & Hk & Hpages & Hresults).
  exists k. split; [lia |]. split; [intros q Hq; apply Hpages; lia |].
  cbn [app List.length] in Hresults. subst results.
  unfold profiles_to_dataframe. rewrite extract_all_tagged. reflexivity.
Qed.

(** *** Example runs and tables *)

Lemma search_returns_leading_pages_witness :
  exists k : nat,
    (Z.of_nat k <= Z.max 0 1)%Z /\
    (forall q, (1 <= q <= Z.of_nat k)%Z ->
               page_returns two_item_upstream q (page_items two_item_upstream q)) /\
    [ tagged 1 0 [(lit "title", VStr (lit "a"))];
      tagged 1 0 [(lit "title", VStr (lit "b"))] ] =
    tagged_pages (page_items two_item_upstream) k 1 0.
Proof.
  exact (@search_returns_leading_pages two_item_upstream None 1 0
           [ tagged 1 0 [(lit "title", VStr (lit "a"))];
             tagged 1 0 [(lit "title", VStr (lit "b"))] ]
           eq_refl).
Defined.

Lemma search_results_are_tagged_witness :
  exists (d : dict) (p : Z) (i : Z),
    tagged 1 0 [(lit "title", VStr (lit "b"))] = VDict d /\
    dict_get (lit "page_number") d = Some (VInt p) /\
    dict_get (lit "result_index") d = Some (VInt i) /\
    (1 <= p <= 1)%Z /\
    (1 <= i <= 2)%Z.
Proof.
  refine (@search_results_are_tagged two_item_upstream None 1 0
            [ tagged 1 0 [(lit "title", VStr (lit "a"))];
              tagged 1 0 [(lit "title", VStr (lit "b"))] ]
            (tagged 1 0 [(lit "title", VStr (lit "b"))])
            eq_refl _).
  right. left. reflexivity.
Defined.


Lemma empty_page_stops_search_witness :
  exists (results : list value) (before : list event),
    results = tagged_pages (page_items one_page_upstream) (Z.to_nat (2 - 1)) 1 0 /\
    snd (search one_page_upstream (Some quiet_callback) 3 0) = Ret results /\
    fst (search one_page_upstream (Some quiet_callback) 3 0) =
      before ++
      called (Some quiet_callback) (2 - 1) 3 (Z.of_nat (List.length results)) ++
      [EvRequest 2 (start_index_of 2)].
Proof.
  refine (@empty_page_stops_search one_page_upstream (Some quiet_callback) 3 0
            2 (VDict [(lit "items", VList [])]) _ eq_refl eq_refl).
  vm_compute. auto 10.
Defined.


Lemma dataframe_of_well_typed_items_witness :
  exists profiles : list dict,
    profiles_to_dataframe listed_frame
      [ VDict [(lit "title", VStr (lit "Jane Doe - Senior Engineer | LinkedIn"))];
        VDict [] ] = Ret (profiles, profile_columns) /\
    List.length profiles = 2%nat.
Proof.
  destruct (@dataframe_of_well_typed_items _ listed_frame
              [ VDict [(lit "title", VStr (lit "Jane Doe - Senior Engineer | LinkedIn"))];
                VDict [] ])
    as (profiles & Hframe & Hlength & _).
  - constructor; [eexists; split; reflexivity |].
    constructor; [eexists; split; reflexivity | constructor].
  - exists profiles. split; [exact Hframe | exact Hlength].
Defined.

Lemma dataframe_fails_with_first_bad_item_witness :
  profiles_to_dataframe listed_frame
    ([ VDict [(lit "title", VStr (lit "a"))] ] ++
     VDict [(lit "title", VNone)] :: [ VDict [(lit "title", VStr (lit "b"))] ]) =
  Raise TypeError.
Proof.
  apply (@dataframe_fails_with_first_bad_item _ listed_frame
           [ VDict [(lit "title", VStr (lit "a"))] ]
           (VDict [(lit "title", VNone)])
           [ VDict [(lit "title", VStr (lit "b"))] ]
           TypeError).
  - constructor; [eexists; reflexivity | constructor].
  - reflexivity.
Defined.

Lemma dataframe_of_search_results_witness :
  exists k : nat,
    (Z.of_nat k <= Z.max 0 1)%Z /\
    (forall q, (1 <= q <= Z.of_nat k)%Z ->
               page_returns two_item_upstream q (page_items two_item_upstream q)) /\
    profiles_to_dataframe listed_frame
      [ tagged 1 0 [(lit "title", VStr (lit "a"))];
        tagged 1 0 [(lit "title", VStr (lit "b"))] ] =
    profiles_to_dataframe listed_frame (raw_pages (page_items two_item_upstream) k 1).
Proof.
  exact (@dataframe_of_search_results _ listed_frame two_item_upstream None 1 0
           [ tagged 1 0 [(lit "title", VStr (lit "a"))];
             tagged 1 0 [(lit "title", VStr (lit "b"))] ]
           eq_refl).
Defined.
